(** * Reporting modules of Taurus: [bzt/modules/reporting.py]

    A shallow embedding of the two reporters of the file, [FinalStatus]
    (the console summary) and [JUnitXMLReporter] (the xunit file), and the
    properties of their end-of-run processing.

    Conventions of the embedding:
    - Python dicts are [gmap]s with string keys; iterating a dict walks
      [map_to_list].
    - Python ints are [Z]; Python floats are exact rationals [Q]: rounding
      is not modelled, and no statement below is about the digits of a
      computed float.
    - A method that logs, touches the file system or raises runs in the
      monad [M]: the log and the file system are threaded and survive a
      raised exception, as they do in Python.
    - [log.info(fmt, args...)] is recorded as the template with its
      arguments, which is what the logging module receives. *)

From Stdlib Require Import ZArith QArith Qround List String Ascii Lia Lqa.
From Stdlib Require Import Sorting.Sorted Sorting.Permutation.
From stdpp Require Import base option list gmap strings pretty.

Local Open Scope Z_scope.
Local Open Scope string_scope.
Local Open Scope list_scope.

(** ** Python values *)

(** The scalar values a YAML configuration entry or an attribute can hold. *)
Inductive pyval : Type :=
| PyNone
| PyBool (b : bool)
| PyInt (n : Z)
| PyStr (s : string).

Global Instance pyval_eq_dec : EqDecision pyval.
Proof. solve_decision. Defined.

(** [bool(v)] *)
Definition truthy (v : pyval) : bool :=
  match v with
  | PyNone => false
  | PyBool b => b
  | PyInt n => negb (n =? 0)%Z
  | PyStr s => negb (String.eqb s "")
  end.

(** [str(n)] for an int *)
Definition str_int (n : Z) : string := pretty n.

(** [str(v)], also what [%s] and [{}] substitute *)
Definition str (v : pyval) : string :=
  match v with
  | PyNone => "None"
  | PyBool true => "True"
  | PyBool false => "False"
  | PyInt n => str_int n
  | PyStr s => s
  end.

(** [d.get(key, default)] *)
Definition dict_get {V} (d : gmap string V) (key : string) (default : V) : V :=
  match d !! key with
  | Some v => v
  | None => default
  end.

(** ** Exceptions, log records and the effect monad *)

Inductive exn : Type :=
| ZeroDivisionError
| KeyError (key : string)
| ValueError (message : string)
| TypeError
| OSError (message : string).

Inductive result (A : Type) : Type :=
| Ok (a : A)
| Raise (e : exn).
Arguments Ok {A} a.
Arguments Raise {A} e.

Inductive level : Type := INFO | WARNING | ERROR.

(** An argument of a logging call. *)
Inductive log_arg : Type :=
| LInt (n : Z)
| LFloat (q : Q)
| LStr (s : string)
| LDelta (seconds : Z).

Record log_record : Type := LogRecord {
  lvl : level;
  fmt : string;
  args : list log_arg
}.

(** What a reporter can change outside itself: the operational log and the
    file system (of any type [FS]). *)
Record world (FS : Type) : Type := World {
  w_log : list log_record;
  w_fs : FS
}.
Arguments World {FS} w_log w_fs.
Arguments w_log {FS} w.
Arguments w_fs {FS} w.

Definition M (FS A : Type) : Type := world FS -> result A * world FS.

Definition ret {FS A} (a : A) : M FS A := fun w => (Ok a, w).

Definition raise {FS A} (e : exn) : M FS A := fun w => (Raise e, w).

Definition bind {FS A B} (m : M FS A) (k : A -> M FS B) : M FS B :=
  fun w =>
    match m w with
    | (Ok a, w') => k a w'
    | (Raise e, w') => (Raise e, w')
    end.

Notation "'let!' x ':=' m 'in' k" := (bind m (fun x => k))
  (at level 10, x name, m at level 100, k at level 200).
Notation "'run!' m 'in' k" := (bind m (fun _ => k))
  (at level 10, m at level 100, k at level 200).

(** [try: body except BaseException: handler; raise] *)
Definition try_except_reraise {FS A} (body : M FS A) (handler : M FS unit) : M FS A :=
  fun w =>
    match body w with
    | (Ok a, w') => (Ok a, w')
    | (Raise e, w') =>
        match handler w' with
        | (Ok _, w'') => (Raise e, w'')
        | (Raise e', w'') => (Raise e', w'')
        end
    end.

Definition lift {FS A} (r : result A) : M FS A := fun w => (r, w).

Definition log {FS} (l : level) (f : string) (a : list log_arg) : M FS unit :=
  fun w => (Ok tt, World (w_log w ++ [LogRecord l f a]) (w_fs w)).

Definition log_info {FS} := @log FS INFO.
Definition log_warning {FS} := @log FS WARNING.
Definition log_error {FS} := @log FS ERROR.

(** [for x in l: body x], stopping at the first exception *)
Fixpoint for_each {FS A} (l : list A) (body : A -> M FS unit) : M FS unit :=
  match l with
  | [] => ret tt
  | x :: l' => run! body x in for_each l' body
  end.

(** Sequencing of computations that can raise but touch neither the log
    nor the file system. *)
Definition bind_result {A B} (r : result A) (k : A -> result B) : result B :=
  match r with
  | Ok a => k a
  | Raise e => Raise e
  end.

Notation "'let?' x ':=' r 'in' k" := (bind_result r (fun x => k))
  (at level 10, x name, r at level 100, k at level 200).

(** [d[key]] *)
Definition dict_item {V} (d : gmap string V) (key : string) : result V :=
  match d !! key with
  | Some v => Ok v
  | None => Raise (KeyError key)
  end.

(** [d.keys()], in the iteration order of the dict *)
Definition dict_keys {V} (d : gmap string V) : list string :=
  map fst (map_to_list d).

(** [[f(x) for x in l]] where [f] can raise: the first exception wins *)
Fixpoint map_result {A B} (f : A -> result B) (l : list A) : result (list B) :=
  match l with
  | [] => Ok []
  | x :: l' =>
      match f x with
      | Raise e => Raise e
      | Ok y =>
          match map_result f l' with
          | Raise e => Raise e
          | Ok ys => Ok (y :: ys)
          end
      end
  end.

(** [a / float(b)] for ints [a] and [b]: the exact quotient, which the
    code rounds to a double.  Only the zero divisor is of concern below. *)
Definition float_div (a b : Z) : result Q :=
  if (b =? 0)%Z then Raise ZeroDivisionError
  else Ok (inject_Z a / inject_Z b)%Q.

(** [int(x)] for a float: truncation towards zero *)
Definition int_of_float (x : Q) : Z :=
  if Qle_bool 0 x then Qfloor x else Qceiling x.

(** ** [sorted] *)

(** [sorted(l, key=key)] when the keys are compared by [leb]: a stable sort.
    [sorted_insert x l] puts [x] in front of the first element whose key is
    not smaller, so [x], which stood before all of [l], stays before its
    equals. *)
Section Sorted.
Context {A K : Type} (key : A -> K) (leb : K -> K -> bool).

Fixpoint sorted_insert (x : A) (l : list A) : list A :=
  match l with
  | [] => [x]
  | y :: l' => if leb (key x) (key y) then x :: y :: l'
               else y :: sorted_insert x l'
  end.

Fixpoint sorted (l : list A) : list A :=
  match l with
  | [] => []
  | x :: l' => sorted_insert x (sorted l')
  end.
End Sorted.

(** ** Aggregated data: [bzt.modules.aggregator] *)

(** One error signature of a label: [{"rc":..., "msg":..., "cnt":..., "urls": {...}}] *)
Record ErrorEntry : Type := {
  rc : string;
  msg : string;
  cnt : Z;
  urls : gmap string Z
}.

(** The statistics of one label, with the keys the reporters read. *)
Record KPISet : Type := {
  SAMPLE_COUNT : Z;
  SUCCESSES : Z;
  FAILURES : Z;
  AVG_RESP_TIME : Q;
  AVG_LATENCY : Q;
  AVG_CONN_TIME : Q;
  PERCENTILES : gmap string Q;
  ERRORS : list ErrorEntry
}.

(** A snapshot; only its cumulative view is read. A [DataPoint] always
    carries its keys, so as a dict it is truthy: [if self.last_sec] tests
    that a snapshot was stored. *)
Record DataPoint : Type := {
  CUMULATIVE : gmap string KPISet
}.

(** ** [FinalStatus]: the console summary *)

Module FinalStatus.
Section WithFloat.
(** The builtin [float] applied to a string: the number the string
    denotes, or nothing when it denotes none ([ValueError]).  The keys
    ["inf"] and ["nan"], which [float] accepts and which are no percentile
    ranks, are not modelled. *)
Context (float : string -> option Q).
Context {FS : Type}.

Record t : Type := {
  last_sec : option DataPoint;
  start_time : Q;
  end_time : option Q;
  parameters : gmap string pyval
}.

(** [__init__]; [now] is the reading of [time.time()] *)
Definition init (now : Q) (params : gmap string pyval) : t :=
  {| last_sec := None; start_time := now; end_time := None;
     parameters := params |}.

Definition startup (now : Q) (self : t) : t :=
  {| last_sec := last_sec self; start_time := now;
     end_time := end_time self; parameters := parameters self |}.

Definition aggregated_second (self : t) (data : DataPoint) : t :=
  {| last_sec := Some data; start_time := start_time self;
     end_time := end_time self; parameters := parameters self |}.

Definition report_samples_count (summary_kpi_set : KPISet) : M FS unit :=
  let! err_rate := lift (float_div (100 * FAILURES summary_kpi_set)
                                   (SAMPLE_COUNT summary_kpi_set)) in
  log_info "Samples count: %s, %.2f%% failures"
           [LInt (SAMPLE_COUNT summary_kpi_set); LFloat err_rate].

Definition float_of (key : string) : result Q :=
  match float key with
  | Some q => Ok q
  | None => Raise (ValueError ("could not convert string to float: '" +:+ key +:+ "'"))
  end.

(** [sorted(keys, key=float)]: the key function is applied to every
    element before anything is compared. *)
Definition sorted_by_float (keys : list string) : result (list string) :=
  match map_result (fun k => match float_of k with
                             | Ok q => Ok (q, k)
                             | Raise e => Raise e
                             end) keys with
  | Ok decorated => Ok (map snd (sorted fst Qle_bool decorated))
  | Raise e => Raise e
  end.

Definition report_percentiles (summary_kpi_set : KPISet) : M FS unit :=
  run! log_info "Average times: total %.3f, latency %.3f, connect %.3f"
                [LFloat (AVG_RESP_TIME summary_kpi_set);
                 LFloat (AVG_LATENCY summary_kpi_set);
                 LFloat (AVG_CONN_TIME summary_kpi_set)] in
  let! keys := lift (sorted_by_float (dict_keys (PERCENTILES summary_kpi_set))) in
  for_each keys (fun key =>
    let! rank := lift (float_of key) in
    let! value := lift (dict_item (PERCENTILES summary_kpi_set) key) in
    log_info "Percentile %.1f%%: %.3f" [LFloat rank; LFloat value]).

Definition report_failed_labels (cumulative : gmap string KPISet) : M FS unit :=
  let report_template := "%d failed samples: %s" in
  let sorted_labels := sorted id String.leb (dict_keys cumulative) in
  for_each sorted_labels (fun sample_label =>
    if negb (String.eqb sample_label "") then
      let! kpi := lift (dict_item cumulative sample_label) in
      let failed_samples_count := FAILURES kpi in
      if negb (failed_samples_count =? 0)%Z then
        log_info report_template [LInt failed_samples_count; LStr sample_label]
      else ret tt
    else ret tt).

(** [datetime.fromtimestamp(int(end)) - datetime.fromtimestamp(int(start))],
    a [timedelta] of whole seconds; the offset of the local time is taken
    to be the same at both readings. *)
Definition report_duration (start_time end_time : Q) : M FS unit :=
  log_info "Test duration: %s"
           [LDelta (int_of_float end_time - int_of_float start_time)].

(** [post_process]; [now] is the reading of [time.time()], which the
    method stores in [self.end_time] and [__report_duration] reads back.
    The hook of the base class, called first, does nothing. *)
Definition post_process (now : Q) (self : t) : M FS unit :=
  run! (if truthy (dict_get (parameters self) "test-duration" (PyBool true))
        then report_duration (start_time self) now
        else ret tt) in
  match last_sec self with
  | Some data =>
      let! summary_kpi := lift (dict_item (CUMULATIVE data) "") in
      run! (if truthy (dict_get (parameters self) "summary" (PyBool true))
            then report_samples_count summary_kpi
            else ret tt) in
      run! (if truthy (dict_get (parameters self) "percentiles" (PyBool true))
            then report_percentiles summary_kpi
            else ret tt) in
      if truthy (dict_get (parameters self) "failed-labels" (PyBool false))
      then report_failed_labels (CUMULATIVE data)
      else ret tt
  | None => ret tt
  end.
End WithFloat.
End FinalStatus.

(** ** The report document: [etree] *)

(** An element of the tree: tag, attributes, text, children.  Attribute
    values are kept as the Python values the code passes. *)
Local Unset Elimination Schemes.
Inductive Element : Type :=
| mkElement (tag : string) (attrib : gmap string pyval)
            (text : option string) (children : list Element).
Local Set Elimination Schemes.

Definition tag (e : Element) : string :=
  match e with mkElement t _ _ _ => t end.
Definition attrib (e : Element) : gmap string pyval :=
  match e with mkElement _ a _ _ => a end.
Definition text (e : Element) : option string :=
  match e with mkElement _ _ x _ => x end.
Definition children (e : Element) : list Element :=
  match e with mkElement _ _ _ c => c end.

(** The element with a tag and attributes, without text or children. *)
Definition element (t : string) (attrs : list (string * pyval)) : Element :=
  mkElement t (list_to_map attrs) None [].

Definition is_None (v : pyval) : bool :=
  match v with
  | PyNone => true
  | _ => false
  end.

(** [etree.Element(tag, k1=v1, ...)]: an attribute value [None] is refused
    with [TypeError].  Values that are neither strings nor [None] are not
    told apart from strings here; the properties about the label entries
    take the class name to be a string. *)
Definition etree_Element (t : string) (attrs : list (string * pyval)) : result Element :=
  if existsb (fun attr => is_None (snd attr)) attrs then Raise TypeError
  else Ok (element t attrs).

(** [parent.append(child)] *)
Definition append (parent child : Element) : Element :=
  mkElement (tag parent) (attrib parent) (text parent) (children parent ++ [child]).

(** [element.text = s] *)
Definition set_text (e : Element) (s : string) : Element :=
  mkElement (tag e) (attrib e) (Some s) (children e).

(** [etree.SubElement(parent, tag, k1=v1, ...)]; the parent with its new
    child is returned. *)
Definition etree_SubElement (parent : Element) (t : string)
    (attrs : list (string * pyval)) : result Element :=
  let? child := etree_Element t attrs in
  Ok (append parent child).

(** The line feed of the templates. *)
Definition nl : string := String "010"%char EmptyString.

(** [tpl % data] for templates whose only conversion is [%s]; too few or
    too many arguments raise [TypeError]. *)
Fixpoint percent_format (tpl : string) (data : list pyval) : result string :=
  match tpl with
  | EmptyString =>
      match data with
      | [] => Ok EmptyString
      | _ :: _ => Raise TypeError
      end
  | String "%"%char (String "s"%char rest) =>
      match data with
      | [] => Raise TypeError
      | v :: data' =>
          match percent_format rest data' with
          | Ok s => Ok (str v +:+ s)
          | Raise e => Raise e
          end
      end
  | String c rest =>
      match percent_format rest data with
      | Ok s => Ok (String c s)
      | Raise e => Raise e
      end
  end.

(** ** The other reporters of the engine *)

(** A pass/fail criterion as the criteria evaluator holds it. *)
Record FailCriteria : Type := {
  config_subject : pyval;
  config_label : pyval;
  config_condition : pyval;
  config_threshold : pyval;
  config_timeframe : pyval;
  is_triggered : bool;
  fail : bool
}.

Inductive reporter : Type :=
| BlazeMeterUploader (client_results_url client_test_id : pyval)
                     (bza_parameters : gmap string pyval)
| PassFailStatus (criterias : list FailCriteria)
| OtherReporter.

Record Engine : Type := {
  reporters : list reporter;
  create_artifact : string -> string -> string
}.

(** ** The file system *)

(** The calls [save_report] makes. A call returns the file system it
    leaves and the exception it raised, if any. [write_tree] is
    [open(path, 'wb')] followed by [ElementTree(root).write] and the
    closing of the file. *)
Class FileSystem (FS : Type) : Type := {
  os_path_exists : FS -> string -> bool;
  os_path_dirname : string -> string;
  os_makedirs : FS -> string -> FS * option exn;
  write_tree : FS -> string -> Element -> FS * option exn;
  file_content : FS -> string -> option Element;
  write_tree_content : forall fs path root fs',
    write_tree fs path root = (fs', None) -> file_content fs' path = Some root
}.

Definition fs_call {FS} (op : FS -> FS * option exn) : M FS unit :=
  fun w =>
    match op (w_fs w) with
    | (fs', None) => (Ok tt, World (w_log w) fs')
    | (fs', Some e) => (Raise e, World (w_log w) fs')
    end.

Definition path_exists {FS} `{!FileSystem FS} (path : string) : M FS bool :=
  fun w => (Ok (os_path_exists (w_fs w) path), w).

(** ** [JUnitXMLReporter]: the xunit file *)

Module JUnitXMLReporter.

Definition REPORT_FILE_NAME : string := "xunit".
Definition REPORT_FILE_EXT : string := ".xml".

(** The entries of [self.parameters] the class reads. *)
Record parameters_t : Type := {
  filename : option string;
  data_source : option pyval
}.

(** [settings] holds the integer settings of the module; the class reads
    ["max-urls"]. *)
Record t : Type := {
  report_file_path : string;
  last_second : option DataPoint;
  max_urls : Z;
  settings : gmap string Z;
  parameters : parameters_t;
  engine : Engine
}.

(** [__init__], followed by the assignment of the settings, parameters
    and engine of the instance.  [__init__] takes no settings: it reads
    ["max-urls"] from the settings of a fresh module, which are empty, and
    the configured ones are assigned afterwards. *)
Definition init (settings : gmap string Z) (parameters : parameters_t)
    (engine : Engine) : t :=
  {| report_file_path := "xunit.xml";
     last_second := None;
     max_urls := dict_get (∅ : gmap string Z) "max-urls" 20;
     settings := settings;
     parameters := parameters;
     engine := engine |}.

Definition aggregated_second (self : t) (data : DataPoint) : t :=
  {| report_file_path := report_file_path self;
     last_second := Some data;
     max_urls := max_urls self;
     settings := settings self;
     parameters := parameters self;
     engine := engine self |}.

Section Methods.
Context {FS : Type} `{!FileSystem FS}.

Definition prepare (self : t) : M FS t :=
  let! max_urls' :=
    (if (max_urls self >? 50)%Z then
       run! log_warning "Limiting urls count in summary report to 50" [] in
       ret 50
     else ret (max_urls self)) in
  let path :=
    match filename (parameters self) with
    | Some f =>
        if truthy (PyStr f) then f
        else create_artifact (engine self) REPORT_FILE_NAME REPORT_FILE_EXT
    | None => create_artifact (engine self) REPORT_FILE_NAME REPORT_FILE_EXT
    end in
  ret {| report_file_path := path;
         last_second := last_second self;
         max_urls := max_urls';
         settings := settings self;
         parameters := {| filename := Some path;
                          data_source := data_source (parameters self) |};
         engine := engine self |}.

(** The loop of [count_errors] over one [urls] dict. *)
Definition count_urls (err_counter : Z) (error : ErrorEntry) : Z :=
  fold_left (fun counter (item : string * Z) => counter + snd item)
            (map_to_list (urls error)) err_counter.

Definition count_errors (summary_kpi_set : KPISet) : Z :=
  fold_left count_urls (ERRORS summary_kpi_set) 0.

Definition bza_info_item (r : reporter) : list (pyval * pyval) :=
  match r with
  | BlazeMeterUploader results_url test_id params =>
      let report_url :=
        if truthy results_url
        then PyStr ("BlazeMeter report link: " +:+ str results_url +:+ nl)
        else PyNone in
      let test_name :=
        if truthy test_id then dict_get params "test" PyNone else PyNone in
      [(report_url, test_name)]
  | _ => []
  end.

Definition get_bza_report_info (self : t) : M FS (list (pyval * pyval)) :=
  let result := flat_map bza_info_item (reporters (engine self)) in
  run! (if (1 <? Z.of_nat (length result))%Z
        then log_warning "More then one blazemeter reporter found" []
        else ret tt) in
  ret result.

Definition err_line (error : ErrorEntry) : string :=
  "Error code: " +:+ rc error +:+ ", Message: " +:+ msg error +:+
  ", count: " +:+ str_int (cnt error) +:+ nl.

Definition url_err_line (item : string * Z) : string :=
  "URL: " +:+ fst item +:+ ", Error count " +:+ str_int (snd item) +:+ nl.

(** What one iteration of [get_urls_errors] writes. *)
Definition error_writes (error : ErrorEntry) : list string :=
  err_line error :: map url_err_line (map_to_list (urls error)).

(** The loop of [get_urls_errors]: [count] is the index [enumerate]
    gives, [written] the writes made to the [StringIO] so far.
    Comparing an int with a missing setting ([None]) is a [TypeError], as
    in Python 3. *)
Fixpoint urls_errors_loop (self : t) (count : Z) (errors : list ErrorEntry)
    (written : list string) : result (list string) :=
  match errors with
  | [] => Ok written
  | error :: rest =>
      match settings self !! "max-urls" with
      | None => Raise TypeError
      | Some limit =>
          if (count >? limit)%Z then Ok written
          else urls_errors_loop self (count + 1) rest
                                (written ++ error_writes error)
      end
  end.

Definition get_urls_errors (self : t) (summary_kpi_set : KPISet) : result string :=
  match urls_errors_loop self 0 (ERRORS summary_kpi_set) [] with
  | Ok written => Ok (String.concat "" written)
  | Raise e => Raise e
  end.

Definition summary_line (summary_kpiset : KPISet) (errors_count : string) : string :=
  "Success: " +:+ str_int (SUCCESSES summary_kpiset) +:+
  ", Sample count: " +:+ str_int (SAMPLE_COUNT summary_kpiset) +:+
  ", Failures: " +:+ str_int (FAILURES summary_kpiset) +:+
  ", Errors: " +:+ errors_count +:+ nl.

Definition make_summary_report (self : t) (summary_kpiset : KPISet)
    (report_urls : list pyval) : result Element :=
  let? testcase_element :=
    etree_Element "testcase" [("classname", PyStr "bzt");
                              ("name", PyStr "summary_report")] in
  let? skipped := etree_Element "skipped" [] in
  let testcase_element := append testcase_element skipped in
  let? system_out_element := etree_Element "system-out" [] in
  let errors_count := str_int (count_errors summary_kpiset) in
  let summary_report := summary_line summary_kpiset errors_count in
  let summary_report :=
    fold_left (fun report report_url =>
                 report +:+ "Blazemeter report: " +:+ str report_url +:+ nl)
              report_urls summary_report in
  let? urls_errors := get_urls_errors self summary_kpiset in
  let system_out_element :=
    set_text system_out_element (summary_report +:+ urls_errors) in
  Ok (append testcase_element system_out_element).

(** The element of one error signature of a label. *)
Definition error_element (er_dict : ErrorEntry) : result Element :=
  let err_message := rc er_dict in
  let err_type := msg er_dict in
  let err_desc := "total errors of this type:" +:+ str_int (cnt er_dict) in
  let? err_etree_element :=
    etree_Element "error" [("message", PyStr err_message);
                           ("type", PyStr err_type)] in
  Ok (set_text err_etree_element err_desc).

(** The loop over the error signatures of a label. *)
Fixpoint errors_loop (errors : list ErrorEntry) (test_case_etree_element : Element)
    : result Element :=
  match errors with
  | [] => Ok test_case_etree_element
  | er_dict :: rest =>
      let? err_etree_element := error_element er_dict in
      errors_loop rest (append test_case_etree_element err_etree_element)
  end.

(** The body of the loop of [process_sample_labels] for a label of the
    cumulative view. *)
Definition label_step (_kpiset : gmap string KPISet) (class_name : pyval)
    (root_xml_element : Element) (key : string) : result Element :=
  if String.eqb key "" then Ok root_xml_element
  else
    let? test_case_etree_element :=
      etree_Element "testcase" [("classname", class_name);
                                ("name", PyStr key)] in
    let? kpi := dict_item _kpiset key in
    let? test_case_etree_element :=
      errors_loop (ERRORS kpi) test_case_etree_element in
    Ok (append root_xml_element test_case_etree_element).

Fixpoint label_loop (_kpiset : gmap string KPISet) (class_name : pyval)
    (keys : list string) (root_xml_element : Element) : result Element :=
  match keys with
  | [] => Ok root_xml_element
  | key :: keys' =>
      match label_step _kpiset class_name root_xml_element key with
      | Raise e => Raise e
      | Ok root' => label_loop _kpiset class_name keys' root'
      end
  end.

Definition process_sample_labels (self : t) : M FS Element :=
  match last_second self with
  | None => raise TypeError
  | Some data =>
      let _kpiset := CUMULATIVE data in
      let! summary_kpiset := lift (dict_item _kpiset "") in
      let! root_xml_element :=
        lift (etree_Element "testsuite" [("name", PyStr "sample_labels");
                                         ("package", PyStr "bzt")]) in
      let! bza_report_info := get_bza_report_info self in
      let class_name :=
        match bza_report_info with
        | info :: _ => snd info
        | [] => PyStr "bzt"
        end in
      let report_urls := map fst bza_report_info in
      let! summary := lift (make_summary_report self summary_kpiset report_urls) in
      let root_xml_element := append root_xml_element summary in
      lift (label_loop _kpiset class_name
                       (sorted id String.leb (dict_keys _kpiset))
                       root_xml_element)
  end.

Definition save_report (self : t) (root_node : Element) : M FS unit :=
  let path := report_file_path self in
  try_except_reraise
    (let! found := path_exists path in
     run! (if found then
             log_warning "File %s already exists, will be overwritten" [LStr path]
           else
             let dirname := os_path_dirname path in
             if truthy (PyStr dirname) then
               let! dir_found := path_exists dirname in
               if negb dir_found then fs_call (fun fs => os_makedirs fs dirname)
               else ret tt
             else ret tt) in
     run! log_info "Writing JUnit XML report into: %s" [LStr path] in
     fs_call (fun fs => write_tree fs path root_node))
    (log_error "Cannot create file %s" [LStr path]).

Definition reporter_criterias (r : reporter) : list FailCriteria :=
  match r with
  | PassFailStatus criterias => criterias
  | _ => []
  end.

(** The template and the tuple the loop of [process_pass_fail] builds
    for a criterion. *)
Definition display_template (fc_obj : FailCriteria) : string * list pyval :=
  let '(tpl, data) :=
    if truthy (config_label fc_obj) then
      ("%s of %s%s%s",
       [config_subject fc_obj; config_label fc_obj;
        config_condition fc_obj; config_threshold fc_obj])
    else
      ("%s%s%s",
       [config_subject fc_obj; config_condition fc_obj;
        config_threshold fc_obj]) in
  if truthy (config_timeframe fc_obj) then
    (tpl +:+ " for %s", (data ++ [config_timeframe fc_obj])%list)
  else (tpl, data).

(** The body of the loop of [process_pass_fail]: the entry of a criterion. *)
Definition criterion_element (classname : pyval) (fc_obj : FailCriteria)
    : result Element :=
  let '(tpl, data) := display_template fc_obj in
  let? disp_name := percent_format tpl data in
  let? testcase_etree :=
    etree_Element "testcase" [("classname", classname);
                              ("name", PyStr disp_name)] in
  if is_triggered fc_obj && fail fc_obj then
    etree_SubElement testcase_etree "error"
      [("type", PyStr "pass/fail criteria triggered");
       ("message", PyStr "")]
  else Ok testcase_etree.

Fixpoint criteria_loop (classname : pyval) (fail_criterias : list FailCriteria)
    (root_xml_element : Element) : result Element :=
  match fail_criterias with
  | [] => Ok root_xml_element
  | fc_obj :: rest =>
      match criterion_element classname fc_obj with
      | Raise e => Raise e
      | Ok testcase_etree =>
          criteria_loop classname rest (append root_xml_element testcase_etree)
      end
  end.

Definition process_pass_fail (self : t) : M FS Element :=
  let fail_criterias := flat_map reporter_criterias (reporters (engine self)) in
  let! root_xml_element :=
    lift (etree_Element "testsuite" [("name", PyStr "bzt_pass_fail");
                                     ("package", PyStr "bzt")]) in
  let! bza_report_info := get_bza_report_info self in
  let test_name :=
    match bza_report_info with
    | info :: _ => snd info
    | [] => PyNone
    end in
  let classname := if truthy test_name then test_name else PyStr "bzt" in
  lift (criteria_loop classname fail_criterias root_xml_element).

(** [post_process]. The hook of the base class, called first, does
    nothing. *)
Definition post_process (self : t) : M FS unit :=
  let test_data_source :=
    match data_source (parameters self) with
    | Some v => v
    | None => PyStr "sample-labels"
    end in
  match last_second self with
  | Some _ =>
      let! root_element :=
        (if bool_decide (test_data_source = PyStr "sample-labels") then
           process_sample_labels self
         else if bool_decide (test_data_source = PyStr "pass-fail") then
           process_pass_fail self
         else
           raise (ValueError ("Unsupported data source: " +:+ str test_data_source))) in
      save_report self root_element
  | None => ret tt
  end.
End Methods.
End JUnitXMLReporter.

(** ** A concrete file system and a concrete [float], for the examples *)

(** Files with their content, directories, and the paths on which the
    system refuses [makedirs] and [open]. *)
Record SimpleFS : Type := {
  files : gmap string Element;
  dirs : gset string;
  denied : gset string
}.

(** [p[:p.rfind('/') + 1]] *)
Fixpoint head_to_last_slash (p : string) : string :=
  match p with
  | EmptyString => EmptyString
  | String c rest =>
      match head_to_last_slash rest with
      | EmptyString => if Ascii.eqb c "/" then "/" else EmptyString
      | h => String c h
      end
  end.

(** [s.rstrip('/')] when [s] is not made of slashes only, else [s] *)
Fixpoint rstrip_slashes (s : string) : string :=
  match s with
  | EmptyString => EmptyString
  | String c rest =>
      match rstrip_slashes rest with
      | EmptyString => if Ascii.eqb c "/" then EmptyString else String c EmptyString
      | r => String c r
      end
  end.

(** [posixpath.dirname] *)
Definition posix_dirname (p : string) : string :=
  let head := head_to_last_slash p in
  match rstrip_slashes head with
  | EmptyString => head
  | stripped => stripped
  end.

Definition simple_makedirs (fs : SimpleFS) (d : string) : SimpleFS * option exn :=
  if bool_decide (d ∈ denied fs) then (fs, Some (OSError "Permission denied"))
  else ({| files := files fs; dirs := {[d]} ∪ dirs fs; denied := denied fs |}, None).

Definition simple_write (fs : SimpleFS) (p : string) (root : Element)
    : SimpleFS * option exn :=
  if bool_decide (p ∈ denied fs) then (fs, Some (OSError "Permission denied"))
  else ({| files := <[p := root]> (files fs); dirs := dirs fs; denied := denied fs |},
        None).

#[export] Program Instance SimpleFS_FileSystem : FileSystem SimpleFS := {|
  os_path_exists fs p := bool_decide (is_Some (files fs !! p)) || bool_decide (p ∈ dirs fs);
  os_path_dirname := posix_dirname;
  os_makedirs := simple_makedirs;
  write_tree := simple_write;
  file_content fs p := files fs !! p
|}.
Next Obligation.
  intros fs path root fs'. unfold simple_write.
  case_bool_decide; intros [= <-]. simpl. apply lookup_insert_eq.
Qed.

(** [float] on plain decimal numerals ([digits], [digits.digits], ...),
    exact; any other string is refused. *)
Fixpoint decimal_go (s : string) (acc : Z) (den : positive)
    (seen_dot any_digit : bool) : option Q :=
  match s with
  | EmptyString => if any_digit then Some (acc # den) else None
  | String c rest =>
      let n := Z.of_N (N_of_ascii c) in
      if ((48 <=? n) && (n <=? 57))%Z then
        decimal_go rest (10 * acc + (n - 48))
                   (if seen_dot then (10 * den)%positive else den) seen_dot true
      else if Ascii.eqb c "." then
        if seen_dot then None else decimal_go rest acc den true any_digit
      else None
  end.

Definition decimal (s : string) : option Q := decimal_go s 0 1 false false.

(** ** Vocabulary of the statements *)

(** A percentile as [FinalStatus] logs it: the key in the mapping, the
    rank [float(key)] and the value stored under the key. *)
Record percentile_line : Type := {
  pl_key : string;
  pl_rank : Q;
  pl_value : Q
}.

Definition percentile_record (p : percentile_line) : log_record :=
  LogRecord INFO "Percentile %.1f%%: %.3f" [LFloat (pl_rank p); LFloat (pl_value p)].

Definition averages_record (kpi : KPISet) : log_record :=
  LogRecord INFO "Average times: total %.3f, latency %.3f, connect %.3f"
    [LFloat (AVG_RESP_TIME kpi); LFloat (AVG_LATENCY kpi); LFloat (AVG_CONN_TIME kpi)].

(** The rank of a percentile key and the value stored under it (0 where
    there is none). *)
Definition key_rank (float : string -> option Q) (key : string) : Q :=
  default 0%Q (float key).

Definition key_value (kpi : KPISet) (key : string) : Q :=
  default 0%Q (PERCENTILES kpi !! key).

(** The keys of the percentile mapping, each with its rank. *)
Definition decorated_keys (float : string -> option Q) (kpi : KPISet)
    : list (Q * string) :=
  map (fun k => (key_rank float k, k)) (dict_keys (PERCENTILES kpi)).

Definition line_of (kpi : KPISet) (d : Q * string) : percentile_line :=
  {| pl_key := snd d; pl_rank := fst d; pl_value := key_value kpi (snd d) |}.

(** The percentiles in the order in which they are logged. *)
Definition percentile_lines (float : string -> option Q) (kpi : KPISet)
    : list percentile_line :=
  map (line_of kpi) (sorted fst Qle_bool (decorated_keys float kpi)).

(** ** Example data *)

Definition empty_fs : SimpleFS := {| files := ∅; dirs := ∅; denied := ∅ |}.

Definition empty_world : world SimpleFS := World [] empty_fs.

Definition example_kpi (samples succ failures : Z) (percentiles : gmap string Q)
    (errors : list ErrorEntry) : KPISet :=
  {| SAMPLE_COUNT := samples; SUCCESSES := succ; FAILURES := failures;
     AVG_RESP_TIME := 0; AVG_LATENCY := 0; AVG_CONN_TIME := 0;
     PERCENTILES := percentiles; ERRORS := errors |}.

(** A run that ended without a single sample. *)
Definition empty_run : DataPoint :=
  {| CUMULATIVE := {[ "" := example_kpi 0 0 0 ∅ [] ]} |}.

Definition final_status_of (data : DataPoint) : FinalStatus.t :=
  FinalStatus.aggregated_second (FinalStatus.init 0 ∅) data.

(** Percentile keys of different lengths. *)
Definition kpi_9_10 : KPISet :=
  example_kpi 100 90 10 {[ "9" := 1%Q; "10" := 2%Q; "50.5" := 3%Q ]} [].

(** Two keys that denote the same number. *)
Definition kpi_9_9 : KPISet :=
  example_kpi 100 90 10 {[ "9" := 1%Q; "9.0" := 3%Q ]} [].


(** The marker of an error signature: the response code as [message],
    the message text as [type], the count in the text. *)
Definition error_marker (er : ErrorEntry) : Element :=
  mkElement "error"
            (list_to_map [("message", PyStr (rc er)); ("type", PyStr (msg er))])
            (Some ("total errors of this type:" +:+ str_int (cnt er)))
            [].

(** The entry [process_sample_labels] builds for a label: a test case
    named after the label with one [error] child per error signature. *)
Definition label_element (class_name : pyval) (key : string) (kpi : KPISet) : Element :=
  mkElement "testcase"
            (list_to_map [("classname", class_name); ("name", PyStr key)])
            None
            (map error_marker (ERRORS kpi)).

(** The entries of the labels [keys], in that order; the empty label has
    none. *)
Definition label_elements (_kpiset : gmap string KPISet) (class_name : pyval)
    (keys : list string) : list Element :=
  flat_map (fun key =>
              if String.eqb key "" then []
              else match _kpiset !! key with
                   | Some kpi => [label_element class_name key kpi]
                   | None => []
                   end) keys.

(** The summary entry with the body [body]. *)
Definition summary_element (body : string) : Element :=
  mkElement "testcase"
            (list_to_map [("classname", PyStr "bzt"); ("name", PyStr "summary_report")])
            None
            [mkElement "skipped" ∅ None [];
             mkElement "system-out" ∅ (Some body) []].

(** The first lines of the body of the summary: the counts, then a line
    per report link. *)
Definition summary_head (kpi : KPISet) (report_urls : list pyval) : string :=
  fold_left (fun report report_url =>
               report +:+ "Blazemeter report: " +:+ str report_url +:+ nl)
            report_urls
            (JUnitXMLReporter.summary_line kpi
               (str_int (JUnitXMLReporter.count_errors kpi))).

(** The breakdown of the error signatures [errors]: what
    [get_urls_errors] writes for each of them. *)
Definition breakdown (errors : list ErrorEntry) : string :=
  String.concat "" (flat_map JUnitXMLReporter.error_writes errors).

(** The class name of the label entries. *)
Definition label_class_name (info : list (pyval * pyval)) : pyval :=
  match info with
  | item :: _ => snd item
  | [] => PyStr "bzt"
  end.

(** The report link and the test name of each BlazeMeter uploader among
    the reporters, in their order: no link without a results URL, no name
    without a test id or without a ["test"] parameter. *)
Fixpoint uploader_pairs (rs : list reporter) : list (pyval * pyval) :=
  match rs with
  | [] => []
  | BlazeMeterUploader results_url test_id params :: rest =>
      (if truthy results_url
       then PyStr ("BlazeMeter report link: " +:+ str results_url +:+ nl)
       else PyNone,
       if truthy test_id
       then match params !! "test" with
            | Some name => name
            | None => PyNone
            end
       else PyNone)
      :: uploader_pairs rest
  | _ :: rest => uploader_pairs rest
  end.

Definition bza_info (self : JUnitXMLReporter.t) : list (pyval * pyval) :=
  uploader_pairs (reporters (JUnitXMLReporter.engine self)).

(** The sum of a list of ints. *)
Definition Zsum (l : list Z) : Z := fold_right Z.add 0 l.

(** Following the specification: the sum, across the error signatures of
    the overall label, of the per-endpoint occurrence counts. *)
Definition total_url_errors (kpi : KPISet) : Z :=
  Zsum (map (fun error => Zsum (map snd (map_to_list (urls error)))) (ERRORS kpi)).


(** The warning of [get_bza_report_info], when it is logged. *)
Definition bza_warning (self : JUnitXMLReporter.t) : list log_record :=
  if (1 <? Z.of_nat (length (bza_info self)))%Z
  then [LogRecord WARNING "More then one blazemeter reporter found" []]
  else [].

(** The root of the document of the sample-labels mode, without children. *)
Definition sample_labels_attrib : gmap string pyval :=
  list_to_map [("name", PyStr "sample_labels"); ("package", PyStr "bzt")].

(** The number of lines of [s] that start with [pat]; [at_start] tells
    whether [s] begins a line. *)
Fixpoint count_lines_with (pat : string) (at_start : bool) (s : string) : nat :=
  match s with
  | EmptyString => 0
  | String c rest =>
      ((if at_start && String.prefix pat s then 1 else 0) +
       count_lines_with pat (Ascii.eqb c "010") rest)%nat
  end.

(** [n] error signatures with distinct codes, one endpoint each. *)
Definition numbered_errors (n : nat) : list ErrorEntry :=
  map (fun i => {| rc := str_int (Z.of_nat i); msg := "failed"; cnt := 1;
                   urls := {[ "http://host/" +:+ str_int (Z.of_nat i) := 1 ]} |})
      (seq 0 n).

Definition no_parameters : JUnitXMLReporter.parameters_t :=
  {| JUnitXMLReporter.filename := None; JUnitXMLReporter.data_source := None |}.

Definition plain_engine : Engine :=
  {| reporters := [];
     create_artifact := fun name ext => "/tmp/artifacts/" +:+ name +:+ ext |}.

(** A reporter configured with [max-urls = 100]. *)
Definition reporter_100 : JUnitXMLReporter.t :=
  JUnitXMLReporter.init {[ "max-urls" := 100 ]} no_parameters plain_engine.

(** Overall statistics with 60 error signatures. *)
Definition kpi_60_errors : KPISet := example_kpi 60 0 60 ∅ (numbered_errors 60).

(** One signature seen 3 times, on two endpoints 2 and 5 times. *)
Definition not_found : ErrorEntry :=
  {| rc := "404"; msg := "Not Found"; cnt := 3;
     urls := {[ "http://a/" := 2; "http://b/" := 5 ]} |}.

Definition kpi_not_found : KPISet := example_kpi 100 93 7 ∅ [not_found].

(** A snapshot with the overall label and the label ["home"]. *)
Definition home_run : DataPoint :=
  {| CUMULATIVE := {[ "" := kpi_not_found; "home" := kpi_not_found ]} |}.

Definition reporter_home : JUnitXMLReporter.t :=
  JUnitXMLReporter.aggregated_second
    (JUnitXMLReporter.init {[ "max-urls" := 20 ]} no_parameters plain_engine)
    home_run.


(** Following the specification: the display name of a criterion,
    ["<subject> of <label><condition><threshold>"] with a label,
    ["<subject><condition><threshold>"] without, and [" for <timeframe>"]
    appended when there is a timeframe. *)
Definition display_name (fc : FailCriteria) : string :=
  let subject := str (config_subject fc) in
  let label := str (config_label fc) in
  let condition := str (config_condition fc) in
  let threshold := str (config_threshold fc) in
  let timeframe := str (config_timeframe fc) in
  match truthy (config_label fc), truthy (config_timeframe fc) with
  | true, true =>
      subject +:+ " of " +:+ label +:+ condition +:+ threshold +:+ " for " +:+ timeframe
  | true, false => subject +:+ " of " +:+ label +:+ condition +:+ threshold
  | false, true => subject +:+ condition +:+ threshold +:+ " for " +:+ timeframe
  | false, false => subject +:+ condition +:+ threshold
  end.

(** The failure marker of a criterion. *)
Definition criteria_marker : Element :=
  mkElement "error"
            (list_to_map [("type", PyStr "pass/fail criteria triggered");
                          ("message", PyStr "")])
            None [].


(** Following the specification: the criteria of every evaluator among
    the reporters, concatenated in the order of the evaluators and, for
    each, in the order of its criteria. *)
Fixpoint registered_criteria (rs : list reporter) : list FailCriteria :=
  match rs with
  | [] => []
  | PassFailStatus criterias :: rest => criterias ++ registered_criteria rest
  | _ :: rest => registered_criteria rest
  end.

Definition fail_criterias (self : JUnitXMLReporter.t) : list FailCriteria :=
  registered_criteria (reporters (JUnitXMLReporter.engine self)).


Definition pass_fail_attrib : gmap string pyval :=
  list_to_map [("name", PyStr "bzt_pass_fail"); ("package", PyStr "bzt")].

(** The two criteria of the example of the specification. *)
Definition avg_rt_criterion : FailCriteria :=
  {| config_subject := PyStr "avg-rt"; config_label := PyStr "";
     config_condition := PyStr ">"; config_threshold := PyStr "500ms";
     config_timeframe := PyNone; is_triggered := true; fail := true |}.

Definition checkout_criterion : FailCriteria :=
  {| config_subject := PyStr "failures"; config_label := PyStr "checkout";
     config_condition := PyStr ">"; config_threshold := PyStr "1%";
     config_timeframe := PyStr "30s"; is_triggered := false; fail := true |}.

Definition pass_fail_engine : Engine :=
  {| reporters := [PassFailStatus [avg_rt_criterion; checkout_criterion]];
     create_artifact := fun name ext => "/tmp/artifacts/" +:+ name +:+ ext |}.

Definition reporter_pass_fail : JUnitXMLReporter.t :=
  JUnitXMLReporter.aggregated_second
    (JUnitXMLReporter.init
       ∅ {| JUnitXMLReporter.filename := None;
            JUnitXMLReporter.data_source := Some (PyStr "pass-fail") |}
       pass_fail_engine)
    home_run.


(** The path [create_artifact] of [plain_engine] gives to the report. *)
Definition xunit_path : string := "/tmp/artifacts/xunit.xml".

Definition old_document : Element := element "testsuite" [].

Definition new_document : Element :=
  element "testsuite" [("name", PyStr "sample_labels"); ("package", PyStr "bzt")].

(** The report of an earlier run is in place. *)
Definition existing_fs : SimpleFS :=
  {| files := {[ xunit_path := old_document ]};
     dirs := {[ "/tmp/artifacts" ]};
     denied := ∅ |}.

(** The artifacts directory is missing and cannot be created. *)
Definition denied_fs : SimpleFS :=
  {| files := ∅; dirs := ∅; denied := {[ "/tmp/artifacts" ]} |}.

Definition reporter_xunit : JUnitXMLReporter.t :=
  {| JUnitXMLReporter.report_file_path := xunit_path;
     JUnitXMLReporter.last_second := Some home_run;
     JUnitXMLReporter.max_urls := 20;
     JUnitXMLReporter.settings := {[ "max-urls" := 20 ]};
     JUnitXMLReporter.parameters :=
       {| JUnitXMLReporter.filename := Some xunit_path;
          JUnitXMLReporter.data_source := None |};
     JUnitXMLReporter.engine := plain_engine |}.

Definition xunit_warning : log_record :=
  LogRecord WARNING "File %s already exists, will be overwritten" [LStr xunit_path].
Definition xunit_writing : log_record :=
  LogRecord INFO "Writing JUnit XML report into: %s" [LStr xunit_path].
Definition xunit_failure : log_record :=
  LogRecord ERROR "Cannot create file %s" [LStr xunit_path].

(** A reporter configured with an unsupported data source. *)
Definition csv_parameters : JUnitXMLReporter.parameters_t :=
  {| JUnitXMLReporter.filename := None;
     JUnitXMLReporter.data_source := Some (PyStr "csv") |}.

Definition reporter_csv : JUnitXMLReporter.t :=
  JUnitXMLReporter.init ∅ csv_parameters plain_engine.


(** ** Vocabulary of the further properties *)

(** The failed samples of a label of the cumulative view (0 for a label
    that is not there). *)
Definition failed_count (cumulative : gmap string KPISet) (label : string) : Z :=
  match cumulative !! label with
  | Some kpi => FAILURES kpi
  | None => 0
  end.

(** The labels [__report_failed_labels] reports: non-empty, with failed
    samples. *)
Definition reports_failure (cumulative : gmap string KPISet) (label : string) : bool :=
  negb (String.eqb label "") && negb (failed_count cumulative label =? 0)%Z.

Definition failed_label_record (cumulative : gmap string KPISet) (label : string)
    : log_record :=
  LogRecord INFO "%d failed samples: %s"
            [LInt (failed_count cumulative label); LStr label].

Definition failed_labels (cumulative : gmap string KPISet) : list string :=
  List.filter (reports_failure cumulative)
              (sorted id String.leb (dict_keys cumulative)).

Definition samples_record (kpi : KPISet) : log_record :=
  LogRecord INFO "Samples count: %s, %.2f%% failures"
    [LInt (SAMPLE_COUNT kpi);
     LFloat (inject_Z (100 * FAILURES kpi) / inject_Z (SAMPLE_COUNT kpi))].

Definition duration_record (start_time now : Q) : log_record :=
  LogRecord INFO "Test duration: %s"
            [LDelta (int_of_float now - int_of_float start_time)].

(** Whether an option of [FinalStatus] is on. *)
Definition enabled (self : FinalStatus.t) (option : string) (default : bool) : bool :=
  truthy (dict_get (FinalStatus.parameters self) option (PyBool default)).

(** The sections of the report of [FinalStatus], each empty when its
    option is off. *)
Definition duration_section (self : FinalStatus.t) (now : Q) : list log_record :=
  if enabled self "test-duration" true
  then [duration_record (FinalStatus.start_time self) now] else [].

Definition samples_section (self : FinalStatus.t) (kpi : KPISet) : list log_record :=
  if enabled self "summary" true then [samples_record kpi] else [].

Definition percentiles_section (float : string -> option Q) (self : FinalStatus.t)
    (kpi : KPISet) : list log_record :=
  if enabled self "percentiles" true
  then averages_record kpi :: map percentile_record (percentile_lines float kpi)
  else [].

Definition failed_labels_section (self : FinalStatus.t)
    (cumulative : gmap string KPISet) : list log_record :=
  if enabled self "failed-labels" false
  then map (failed_label_record cumulative) (failed_labels cumulative)
  else [].

(** A snapshot with failures on two of its three labels. *)
Definition mixed_run : DataPoint :=
  {| CUMULATIVE := {[ "" := kpi_9_10;
                      "search" := example_kpi 40 40 0 ∅ [];
                      "login" := example_kpi 30 25 5 ∅ [];
                      "Home" := example_kpi 30 25 5 ∅ [] ]} |}.

(** A snapshot without the overall label. *)
Definition headless_run : DataPoint :=
  {| CUMULATIVE := {[ "home" := kpi_not_found ]} |}.

(** A percentile key that is no number. *)
Definition kpi_bad_key : KPISet :=
  example_kpi 100 90 10 {[ "50.0" := 1%Q; "median" := 2%Q ]} [].


Definition limit_warning : log_record :=
  LogRecord WARNING "Limiting urls count in summary report to 50" [].

(** The path the engine gives to the report. *)
Definition artifact_path (self : JUnitXMLReporter.t) : string :=
  create_artifact (JUnitXMLReporter.engine self)
                  JUnitXMLReporter.REPORT_FILE_NAME JUnitXMLReporter.REPORT_FILE_EXT.

Definition is_uploader (r : reporter) : bool :=
  match r with
  | BlazeMeterUploader _ _ _ => true
  | _ => false
  end.

(** The lines of the report links in the body of the summary. *)
Definition report_links (report_urls : list pyval) : string :=
  fold_right (fun report_url rest =>
                "Blazemeter report: " +:+ str report_url +:+ nl +:+ rest)
             "" report_urls.


Definition sample_labels_root (self : JUnitXMLReporter.t) (data : DataPoint)
    (overall : KPISet) (limit : Z) : Element :=
  mkElement "testsuite" sample_labels_attrib None
    (summary_element
       (summary_head overall (map fst (bza_info self)) +:+
        breakdown (firstn (Z.to_nat (limit + 1)) (ERRORS overall)))
     :: label_elements (CUMULATIVE data) (label_class_name (bza_info self))
          (sorted id String.leb (dict_keys (CUMULATIVE data)))).

(** A reporter with an explicit file name and a low [max-urls]. *)
Definition reporter_named : JUnitXMLReporter.t :=
  JUnitXMLReporter.init
    {[ "max-urls" := 1 ]}
    {| JUnitXMLReporter.filename := Some "reports/junit.xml";
       JUnitXMLReporter.data_source := None |}
    plain_engine.

(** Two uploaders, the first without a test id. *)
Definition uploaders_engine : Engine :=
  {| reporters := [BlazeMeterUploader (PyStr "https://a.blazemeter.com/r/1") PyNone
                     {[ "test" := PyStr "Nightly" ]};
                   OtherReporter;
                   BlazeMeterUploader PyNone (PyInt 7) {[ "test" := PyStr "Smoke" ]}];
     create_artifact := fun name ext => "/tmp/artifacts/" +:+ name +:+ ext |}.

Definition reporter_uploaders : JUnitXMLReporter.t :=
  JUnitXMLReporter.aggregated_second
    (JUnitXMLReporter.init {[ "max-urls" := 20 ]} no_parameters uploaders_engine)
    home_run.

(** Three signatures for an overall label. *)
Definition kpi_3_errors : KPISet := example_kpi 3 0 3 ∅ (numbered_errors 3).

Definition reporter_headless : JUnitXMLReporter.t :=
  JUnitXMLReporter.aggregated_second
    (JUnitXMLReporter.init {[ "max-urls" := 20 ]} no_parameters plain_engine)
    headless_run.

(** The report goes to the working directory, which has no name to create. *)
Definition reporter_cwd : JUnitXMLReporter.t :=
  {| JUnitXMLReporter.report_file_path := "xunit.xml";
     JUnitXMLReporter.last_second := Some home_run;
     JUnitXMLReporter.max_urls := 20;
     JUnitXMLReporter.settings := {[ "max-urls" := 20 ]};
     JUnitXMLReporter.parameters := no_parameters;
     JUnitXMLReporter.engine := plain_engine |}.


(** The class name of the label entries is a string: the engine has no
    BlazeMeter uploader, or the first of them has a test id and a string as
    its ["test"] parameter. *)
Definition class_name_given (self : JUnitXMLReporter.t) : Prop :=
  match List.filter is_uploader (reporters (JUnitXMLReporter.engine self)) with
  | BlazeMeterUploader _ test_id params :: _ =>
      truthy test_id = true /\
      exists name : string, params !! "test" = Some (PyStr name)
  | _ => True
  end.

(** The class name of the label entries is [None]: the first BlazeMeter
    uploader of the engine has no test id, or no ["test"] parameter but
    [None]. *)
Definition class_name_missing (self : JUnitXMLReporter.t) : Prop :=
  match List.filter is_uploader (reporters (JUnitXMLReporter.engine self)) with
  | BlazeMeterUploader _ test_id params :: _ =>
      truthy test_id = false \/ dict_get params "test" PyNone = PyNone
  | _ => False
  end.

(** The cumulative view has no label but the overall one. *)
Definition only_overall (data : DataPoint) : Prop :=
  forall label, is_Some (CUMULATIVE data !! label) -> label = "".

(** An engine whose uploader names its test. *)
Definition named_test_engine : Engine :=
  {| reporters := [OtherReporter;
                   BlazeMeterUploader (PyStr "https://a.blazemeter.com/r/1") (PyInt 7)
                     {[ "test" := PyStr "Nightly" ]}];
     create_artifact := fun name ext => "/tmp/artifacts/" +:+ name +:+ ext |}.

Definition reporter_named_test : JUnitXMLReporter.t :=
  JUnitXMLReporter.aggregated_second
    (JUnitXMLReporter.init {[ "max-urls" := 20 ]} no_parameters named_test_engine)
    home_run.

(** A reporter whose [max_urls] was set to 100 by hand. *)
Definition reporter_hand_set : JUnitXMLReporter.t :=
  {| JUnitXMLReporter.report_file_path := "xunit.xml";
     JUnitXMLReporter.last_second := None;
     JUnitXMLReporter.max_urls := 100;
     JUnitXMLReporter.settings := {[ "max-urls" := 100 ]};
     JUnitXMLReporter.parameters := no_parameters;
     JUnitXMLReporter.engine := plain_engine |}.




(** * Properties *)

(** ** [sorted] returns a sorted rearrangement *)

Section SortedFacts.
Context {A K : Type} (key : A -> K) (leb : K -> K -> bool).

Definition key_le (x y : A) : Prop := leb (key x) (key y) = true.

Lemma sorted_insert_Permutation (x : A) (l : list A) :
  Permutation (sorted_insert key leb x l) (x :: l).
Proof.
  induction l as [|y l IH]; simpl.
  - reflexivity.
  - destruct (leb (key x) (key y)).
    + reflexivity.
    + rewrite IH. apply perm_swap.
Qed.

Lemma sorted_Permutation (l : list A) : Permutation (sorted key leb l) l.
Proof.
  induction l as [|x l IH]; simpl.
  - reflexivity.
  - rewrite sorted_insert_Permutation. now constructor.
Qed.

Hypothesis leb_total : forall a b, leb a b = true \/ leb b a = true.

Lemma sorted_insert_HdRel (x y : A) (l : list A) :
  key_le y x -> HdRel key_le y l -> HdRel key_le y (sorted_insert key leb x l).
Proof.
  intros Hyx Hhd. destruct l as [|z l]; simpl.
  - now constructor.
  - destruct (leb (key x) (key z)); constructor; trivial.
    now inversion Hhd.
Qed.

Lemma sorted_insert_Sorted (x : A) (l : list A) :
  Sorted key_le l -> Sorted key_le (sorted_insert key leb x l).
Proof.
  induction 1 as [|y l Hs IH Hhd]; simpl.
  - repeat constructor.
  - destruct (leb (key x) (key y)) eqn:E.
    + constructor; [now constructor | now constructor].
    + constructor; [exact IH |].
      apply sorted_insert_HdRel; [| exact Hhd].
      destruct (leb_total (key x) (key y)) as [H | H]; [congruence | exact H].
Qed.

Lemma sorted_Sorted (l : list A) : Sorted key_le (sorted key leb l).
Proof.
  induction l as [|x l IH]; simpl; [constructor |].
  now apply sorted_insert_Sorted.
Qed.

Hypothesis leb_trans :
  forall a b c, leb a b = true -> leb b c = true -> leb a c = true.

Lemma sorted_StronglySorted (l : list A) :
  StronglySorted key_le (sorted key leb l).
Proof.
  apply Sorted_StronglySorted; [| apply sorted_Sorted].
  intros a b c. unfold key_le. apply leb_trans.
Qed.
End SortedFacts.

(** A sorted list without equal neighbours in the order is strictly sorted. *)
Lemma StronglySorted_strict {A} (R S : A -> A -> Prop) (l : list A) :
  (forall a b, In a l -> In b l -> R a b -> a <> b -> S a b) ->
  NoDup l -> StronglySorted R l -> StronglySorted S l.
Proof.
  intros HRS Hnd Hs. induction Hs as [|a l Hs IH Hall]; [constructor |].
  apply NoDup_cons in Hnd as [Hni Hnd'].
  constructor.
  - apply IH; [| exact Hnd'].
    intros x y Hx Hy. apply HRS; now right.
  - rewrite List.Forall_forall in *. intros b Hb.
    apply HRS; [now left | now right | now apply Hall |].
    intros ->. apply Hni. now apply list_elem_of_In.
Qed.

(** ** The order of Python strings *)

Lemma ascii_compare_refl (a : ascii) : Ascii.compare a a = Eq.
Proof. unfold Ascii.compare. apply N.compare_refl. Qed.

Lemma string_compare_refl (s : string) : String.compare s s = Eq.
Proof.
  induction s as [|a s IH]; simpl; [reflexivity |].
  now rewrite ascii_compare_refl.
Qed.

Lemma ascii_compare_Lt_trans (a b c : ascii) :
  Ascii.compare a b = Lt -> Ascii.compare b c = Lt -> Ascii.compare a c = Lt.
Proof.
  unfold Ascii.compare. rewrite !N.compare_lt_iff. lia.
Qed.

Lemma string_compare_Lt_trans (s1 s2 s3 : string) :
  String.compare s1 s2 = Lt -> String.compare s2 s3 = Lt ->
  String.compare s1 s3 = Lt.
Proof.
  revert s2 s3. induction s1 as [|a s1 IH]; intros [|b s2] [|c s3]; simpl;
    try congruence.
  destruct (Ascii.compare a b) eqn:Eab; try congruence;
    destruct (Ascii.compare b c) eqn:Ebc; try congruence.
  - apply Ascii.compare_eq_iff in Eab, Ebc. subst.
    rewrite ascii_compare_refl. apply IH.
  - apply Ascii.compare_eq_iff in Eab. subst. now rewrite Ebc.
  - apply Ascii.compare_eq_iff in Ebc. subst. now rewrite Eab.
  - now rewrite (ascii_compare_Lt_trans _ _ _ Eab Ebc).
Qed.

Lemma string_leb_iff (s1 s2 : string) :
  String.leb s1 s2 = true <-> String.ltb s1 s2 = true \/ s1 = s2.
Proof.
  unfold String.leb, String.ltb.
  destruct (String.compare s1 s2) eqn:E; split; intros H; try congruence; auto.
  - right. now apply String.compare_eq_iff.
  - destruct H as [H | H]; [congruence |]. subst.
    now rewrite string_compare_refl in E.
Qed.

Lemma string_ltb_trans (s1 s2 s3 : string) :
  String.ltb s1 s2 = true -> String.ltb s2 s3 = true -> String.ltb s1 s3 = true.
Proof.
  unfold String.ltb. intros H1 H2.
  destruct (String.compare s1 s2) eqn:E1; try congruence.
  destruct (String.compare s2 s3) eqn:E2; try congruence.
  now rewrite (string_compare_Lt_trans _ _ _ E1 E2).
Qed.

Lemma string_leb_trans (s1 s2 s3 : string) :
  String.leb s1 s2 = true -> String.leb s2 s3 = true -> String.leb s1 s3 = true.
Proof.
  rewrite !string_leb_iff. intros [H1 | ->] [H2 | ->]; auto.
  left. eapply string_ltb_trans; eauto.
Qed.

(** [sorted(d.keys())] lists the keys of the dict once each, in strictly
    ascending order. *)
Lemma dict_keys_NoDup {V} (d : gmap string V) : NoDup (dict_keys d).
Proof. unfold dict_keys. apply NoDup_fst_map_to_list. Qed.

Lemma elem_of_dict_keys {V} (d : gmap string V) (k : string) :
  k ∈ dict_keys d <-> is_Some (d !! k).
Proof.
  unfold dict_keys. rewrite list_elem_of_fmap. split.
  - intros [[k' v] [-> H]]. apply elem_of_map_to_list in H. now exists v.
  - intros [v H]. exists (k, v). split; [easy |]. now apply elem_of_map_to_list.
Qed.

Lemma sorted_keys_strict {V} (d : gmap string V) :
  StronglySorted (fun a b => String.ltb a b = true)
                 (sorted id String.leb (dict_keys d)).
Proof.
  apply (StronglySorted_strict (key_le id String.leb)).
  - unfold key_le, id. intros a b _ _ H Hne.
    apply string_leb_iff in H as [H | H]; [exact H | contradiction].
  - rewrite sorted_Permutation. apply dict_keys_NoDup.
  - apply sorted_StronglySorted;
      [apply String.leb_total | apply string_leb_trans].
Qed.

(** ** Loops that only log *)

Lemma map_result_Ok {A B} (f : A -> result B) (g : A -> B) (l : list A) :
  (forall x, In x l -> f x = Ok (g x)) -> map_result f l = Ok (map g l).
Proof.
  induction l as [|x l IH]; intros H; simpl; [reflexivity |].
  rewrite (H x) by now left.
  rewrite IH; [reflexivity |]. intros y Hy. apply H. now right.
Qed.

Lemma for_each_logs {FS A} (l : list A) (body : A -> M FS unit)
    (line : A -> log_record) (w : world FS) :
  (forall x w0, In x l ->
     body x w0 = (Ok tt, World (w_log w0 ++ [line x]) (w_fs w0))) ->
  for_each l body w = (Ok tt, World (w_log w ++ map line l) (w_fs w)).
Proof.
  revert w. induction l as [|x l IH]; intros w H; simpl.
  - unfold ret. rewrite app_nil_r. now destruct w.
  - unfold bind. rewrite (H x w) by now left.
    rewrite IH by (intros; apply H; now right). simpl.
    now rewrite <- app_assoc.
Qed.

(** ** [FinalStatus] *)

Section FinalStatusFacts.
Import FinalStatus.
Context (float : string -> option Q) {FS : Type}.

Lemma report_samples_count_zero (kpi : KPISet) (w : world FS) :
  SAMPLE_COUNT kpi = 0 ->
  report_samples_count kpi w = (Raise ZeroDivisionError, w).
Proof.
  intros H. unfold report_samples_count, bind, lift, float_div.
  now rewrite H.
Qed.

(** With samples, the rate logged is [100 * failures / sample_count]. *)
Lemma report_samples_count_nonzero (kpi : KPISet) (w : world FS) :
  SAMPLE_COUNT kpi <> 0 ->
  report_samples_count kpi w =
    (Ok tt,
     World (w_log w ++
            [LogRecord INFO "Samples count: %s, %.2f%% failures"
               [LInt (SAMPLE_COUNT kpi);
                LFloat (inject_Z (100 * FAILURES kpi) / inject_Z (SAMPLE_COUNT kpi))]])
           (w_fs w)).
Proof.
  intros H. unfold report_samples_count, bind, lift, float_div.
  apply Z.eqb_neq in H. now rewrite H.
Qed.

Lemma Qle_bool_total (a b : Q) : Qle_bool a b = true \/ Qle_bool b a = true.
Proof.
  rewrite !Qle_bool_iff. destruct (Qlt_le_dec a b) as [H | H]; auto.
  left. now apply Qlt_le_weak.
Qed.

Lemma Qle_bool_trans (a b c : Q) :
  Qle_bool a b = true -> Qle_bool b c = true -> Qle_bool a c = true.
Proof. rewrite !Qle_bool_iff. apply Qle_trans. Qed.
End FinalStatusFacts.

Section Percentiles.
Import FinalStatus.
Context (float : string -> option Q) {FS : Type}.
Context (kpi : KPISet).
Hypothesis numeric_keys :
  forall key, is_Some (PERCENTILES kpi !! key) -> is_Some (float key).

Local Abbreviation rank := (key_rank float).
Local Abbreviation value := (key_value kpi).
Local Abbreviation decorated := (decorated_keys float kpi).
Local Abbreviation lines := (percentile_lines float kpi).

Lemma float_of_key (key : string) :
  In key (dict_keys (PERCENTILES kpi)) -> float_of float key = Ok (rank key).
Proof.
  intros Hin. apply list_elem_of_In, elem_of_dict_keys, numeric_keys in Hin.
  destruct Hin as [q Hq]. unfold float_of, key_rank. now rewrite Hq.
Qed.

Lemma sorted_by_float_keys :
  sorted_by_float float (dict_keys (PERCENTILES kpi)) = Ok (map pl_key lines).
Proof.
  unfold sorted_by_float.
  rewrite (map_result_Ok _ (fun k => (rank k, k))).
  - unfold percentile_lines. rewrite map_map. reflexivity.
  - intros k Hk. now rewrite float_of_key.
Qed.

Lemma lines_keys : Permutation (map pl_key lines) (dict_keys (PERCENTILES kpi)).
Proof.
  unfold percentile_lines. rewrite map_map. simpl.
  change (fun x : Q * string => snd x) with (@snd Q string).
  rewrite sorted_Permutation. unfold decorated_keys. rewrite map_map. simpl.
  now rewrite map_id.
Qed.

Lemma lines_sound (p : percentile_line) :
  In p lines ->
  float (pl_key p) = Some (pl_rank p) /\
  PERCENTILES kpi !! pl_key p = Some (pl_value p).
Proof.
  unfold percentile_lines. rewrite in_map_iff. intros [[q k] [<- Hin]].
  apply (Permutation_in _ (sorted_Permutation fst Qle_bool decorated)) in Hin.
  unfold decorated_keys in Hin. rewrite in_map_iff in Hin.
  destruct Hin as [k' [[= <- ->] Hk]]. simpl.
  apply list_elem_of_In, elem_of_dict_keys in Hk.
  destruct (numeric_keys _ Hk) as [q Hq]. destruct Hk as [v Hv].
  unfold key_rank, key_value. rewrite Hq, Hv. now split.
Qed.

Lemma lines_ascending : StronglySorted Qle (map pl_rank lines).
Proof.
  unfold percentile_lines. rewrite map_map. simpl.
  pose proof (sorted_StronglySorted fst Qle_bool Qle_bool_total Qle_bool_trans
                decorated) as Hs.
  induction Hs as [|d l Hs IH Hall]; simpl; constructor; [exact IH |].
  rewrite List.Forall_forall in *. intros q Hq.
  apply in_map_iff in Hq as [d' [<- Hd']].
  apply Qle_bool_iff. now apply Hall.
Qed.

Lemma lines_strictly_ascending :
  (forall k1 k2 r1 r2, k1 <> k2 ->
     is_Some (PERCENTILES kpi !! k1) -> is_Some (PERCENTILES kpi !! k2) ->
     float k1 = Some r1 -> float k2 = Some r2 -> ~ (r1 == r2)%Q) ->
  StronglySorted Qlt (map pl_rank lines).
Proof.
  intros Hdistinct.
  assert (Hs : StronglySorted (fun a b : Q * string => (fst a < fst b)%Q)
                 (sorted fst Qle_bool decorated)).
  { apply (StronglySorted_strict (key_le fst Qle_bool)).
    - intros [q1 k1] [q2 k2] H1 H2 Hle Hne. simpl.
      apply (Permutation_in _ (sorted_Permutation fst Qle_bool decorated)) in H1, H2.
      unfold decorated_keys in H1, H2. rewrite in_map_iff in H1, H2.
      destruct H1 as [k1' [[= <- ->] Hk1]]. destruct H2 as [k2' [[= <- ->] Hk2]].
      apply list_elem_of_In, elem_of_dict_keys in Hk1, Hk2.
      destruct (numeric_keys _ Hk1) as [r1 Hr1].
      destruct (numeric_keys _ Hk2) as [r2 Hr2].
      unfold key_le in Hle. simpl in Hle. apply Qle_bool_iff in Hle.
      assert (Hk : k1 <> k2) by (intros ->; now apply Hne).
      pose proof (Hdistinct k1 k2 r1 r2 Hk Hk1 Hk2 Hr1 Hr2) as Hneq.
      unfold key_rank in *. rewrite Hr1, Hr2 in *. simpl in *.
      apply Qle_lteq in Hle as [Hlt | Heq]; [exact Hlt | contradiction].
    - rewrite sorted_Permutation. unfold decorated_keys.
      apply NoDup_fmap_2; [| apply dict_keys_NoDup].
      intros k1 k2 [= _ H]. exact H.
    - apply sorted_StronglySorted; [apply Qle_bool_total | apply Qle_bool_trans]. }
  unfold percentile_lines. rewrite map_map. simpl.
  induction Hs as [|d l Hs IH Hall]; simpl; constructor; [exact IH |].
  rewrite List.Forall_forall in *. intros q Hq.
  apply in_map_iff in Hq as [d' [<- Hd']]. now apply Hall.
Qed.

Lemma report_percentiles_log (w : world FS) :
  report_percentiles float kpi w =
    (Ok tt,
     World (w_log w ++ averages_record kpi :: map percentile_record lines) (w_fs w)).
Proof.
  unfold report_percentiles, bind at 1. unfold log_info at 1, log. simpl.
  unfold bind at 1, lift at 1. rewrite sorted_by_float_keys.
  rewrite (for_each_logs _ _ (fun k => percentile_record
             {| pl_key := k; pl_rank := rank k; pl_value := value k |})).
  - simpl. rewrite <- app_assoc. simpl. rewrite map_map.
    f_equal. f_equal. f_equal. unfold averages_record. f_equal.
    apply map_ext_in. intros p Hp.
    destruct (lines_sound p Hp) as [Hr Hv].
    unfold key_rank, key_value. rewrite Hr, Hv. now destruct p.
  - intros k w0 Hk. apply in_map_iff in Hk as [p [<- Hp]].
    destruct (lines_sound p Hp) as [Hr Hv].
    unfold bind, lift, float_of, dict_item, key_rank, key_value. rewrite Hr, Hv.
    reflexivity.
Qed.
End Percentiles.

(** C1. A snapshot whose overall statistics count no sample makes the
    finalisation of the Summary Reporter raise [ZeroDivisionError] when the
    summary is enabled: the rate is computed as
    [100 * failures / float(sample_count)] without a test of the divisor,
    so no failure rate is logged. *)
Theorem post_process_zero_samples_raises (float : string -> option Q) {FS : Type}
    (now : Q) (self : FinalStatus.t) (data : DataPoint) (overall : KPISet)
    (w : world FS) :
  FinalStatus.last_sec self = Some data ->
  CUMULATIVE data !! "" = Some overall ->
  SAMPLE_COUNT overall = 0 ->
  truthy (dict_get (FinalStatus.parameters self) "summary" (PyBool true)) = true ->
  exists w',
    FinalStatus.post_process float now self w = (Raise ZeroDivisionError, w') /\
    w_log w' =
      (w_log w ++
       if truthy (dict_get (FinalStatus.parameters self) "test-duration" (PyBool true))
       then [LogRecord INFO "Test duration: %s"
               [LDelta (int_of_float now - int_of_float (FinalStatus.start_time self))]]
       else [])%list.
Proof.
  intros Hlast Hoverall Hzero Hsummary.
  unfold FinalStatus.post_process. rewrite Hlast.
  destruct (truthy (dict_get (FinalStatus.parameters self) "test-duration" (PyBool true)));
    unfold bind at 1; simpl; unfold bind at 1, lift at 1, dict_item;
    rewrite Hoverall; unfold bind at 1; rewrite Hsummary;
    rewrite report_samples_count_zero by exact Hzero;
    eexists; (split; [reflexivity |]); simpl; [reflexivity |].
  now rewrite app_nil_r.
Qed.

Lemma post_process_zero_samples_raises_witness :
  exists w',
    FinalStatus.post_process decimal 10 (final_status_of empty_run) empty_world
      = (Raise ZeroDivisionError, w') /\
    w_log w' = [LogRecord INFO "Test duration: %s" [LDelta 10]].
Proof.
  apply (post_process_zero_samples_raises decimal 10 (final_status_of empty_run)
           empty_run (example_kpi 0 0 0 ∅ []) empty_world);
    reflexivity.
Defined.

(** C5 (amended). When every key of the percentile mapping denotes a
    number, [__report_percentiles] logs the averages and then one record per
    key, each with the rank [float(key)] and the value stored under the key,
    in ascending order of the ranks; the order is strict when no two keys
    denote the same number. *)
Theorem report_percentiles_ascending (float : string -> option Q) {FS : Type}
    (kpi : KPISet) (w : world FS) :
  (forall key, is_Some (PERCENTILES kpi !! key) -> is_Some (float key)) ->
  exists lines : list percentile_line,
    FinalStatus.report_percentiles float kpi w =
      (Ok tt,
       World (w_log w ++ averages_record kpi :: map percentile_record lines)
             (w_fs w)) /\
    Permutation (map pl_key lines) (dict_keys (PERCENTILES kpi)) /\
    (forall p, In p lines ->
       float (pl_key p) = Some (pl_rank p) /\
       PERCENTILES kpi !! pl_key p = Some (pl_value p)) /\
    StronglySorted Qle (map pl_rank lines) /\
    ((forall k1 k2 r1 r2, k1 <> k2 ->
        is_Some (PERCENTILES kpi !! k1) -> is_Some (PERCENTILES kpi !! k2) ->
        float k1 = Some r1 -> float k2 = Some r2 -> ~ (r1 == r2)%Q) ->
     StronglySorted Qlt (map pl_rank lines)).
Proof.
  intros Hnum. eexists. split; [apply report_percentiles_log; exact Hnum |].
  split; [apply lines_keys |].
  split; [intros p; apply lines_sound; exact Hnum |].
  split; [apply lines_ascending | apply lines_strictly_ascending; exact Hnum].
Qed.


Lemma kpi_9_10_keys : dict_keys (PERCENTILES kpi_9_10) = ["50.5"; "9"; "10"].
Proof. vm_compute. reflexivity. Qed.

Lemma kpi_9_10_numeric (key : string) :
  is_Some (PERCENTILES kpi_9_10 !! key) -> is_Some (decimal key).
Proof.
  intros H. apply elem_of_dict_keys in H. rewrite kpi_9_10_keys in H.
  apply list_elem_of_In in H.
  destruct H as [<- | [<- | [<- | []]]]; eexists; vm_compute; reflexivity.
Qed.

Lemma report_percentiles_ascending_witness :
  exists lines : list percentile_line,
    FinalStatus.report_percentiles decimal kpi_9_10 empty_world =
      (Ok tt,
       World (w_log empty_world ++ averages_record kpi_9_10 ::
              map percentile_record lines)
             (w_fs empty_world)) /\
    Permutation (map pl_key lines) (dict_keys (PERCENTILES kpi_9_10)) /\
    (forall p, In p lines ->
       decimal (pl_key p) = Some (pl_rank p) /\
       PERCENTILES kpi_9_10 !! pl_key p = Some (pl_value p)) /\
    StronglySorted Qle (map pl_rank lines) /\
    ((forall k1 k2 r1 r2, k1 <> k2 ->
        is_Some (PERCENTILES kpi_9_10 !! k1) -> is_Some (PERCENTILES kpi_9_10 !! k2) ->
        decimal k1 = Some r1 -> decimal k2 = Some r2 -> ~ (r1 == r2)%Q) ->
     StronglySorted Qlt (map pl_rank lines)).
Proof.
  apply (report_percentiles_ascending decimal kpi_9_10 empty_world).
  exact kpi_9_10_numeric.
Defined.

(** The key ["9"] is logged before the key ["10"], which is the smaller
    string. *)
Example report_percentiles_9_before_10 :
  FinalStatus.report_percentiles decimal kpi_9_10 empty_world =
    (Ok tt,
     World [averages_record kpi_9_10;
            percentile_record {| pl_key := "9"; pl_rank := 9; pl_value := 1 |};
            percentile_record {| pl_key := "10"; pl_rank := 10; pl_value := 2 |};
            percentile_record {| pl_key := "50.5"; pl_rank := 505 # 10; pl_value := 3 |}]
           empty_fs) /\
  String.ltb "10" "9" = true.
Proof. split; vm_compute; reflexivity. Qed.

Lemma kpi_9_9_keys : dict_keys (PERCENTILES kpi_9_9) = ["9.0"; "9"].
Proof. vm_compute. reflexivity. Qed.

(** C5, as stated, fails when two keys denote the same number: with the
    keys ["9"] and ["9.0"], both numeric, two records of rank 9 are logged,
    and the second rank is not greater than the first. *)
Lemma report_percentiles_not_strict :
  exists r1 r2 : Q,
    FinalStatus.report_percentiles decimal kpi_9_9 empty_world =
      (Ok tt,
       World [averages_record kpi_9_9;
              percentile_record {| pl_key := "9.0"; pl_rank := r1; pl_value := 3 |};
              percentile_record {| pl_key := "9"; pl_rank := r2; pl_value := 1 |}]
             empty_fs) /\
    (forall key, is_Some (PERCENTILES kpi_9_9 !! key) -> is_Some (decimal key)) /\
    ~ (r1 < r2)%Q.
Proof.
  exists (90 # 10), 9%Q. split; [vm_compute; reflexivity |]. split.
  - intros key H. apply elem_of_dict_keys in H. rewrite kpi_9_9_keys in H.
    apply list_elem_of_In in H.
    destruct H as [<- | [<- | []]]; eexists; vm_compute; reflexivity.
  - unfold Qlt. simpl. lia.
Qed.

(** ** [JUnitXMLReporter]: building the tree *)

Section SampleLabels.
Import JUnitXMLReporter.

Lemma etree_Element_accepts (t : string) (attrs : list (string * pyval)) :
  existsb (fun attr => is_None (snd attr)) attrs = false ->
  etree_Element t attrs = Ok (element t attrs).
Proof. intros H. unfold etree_Element. now rewrite H. Qed.

Lemma is_None_false (v : pyval) : v <> PyNone -> is_None v = false.
Proof. destruct v; simpl; congruence. Qed.

Lemma errors_loop_markers (errors : list ErrorEntry) (el : Element) :
  errors_loop errors el =
    Ok (mkElement (tag el) (attrib el) (text el)
                  (children el ++ map error_marker errors)).
Proof.
  revert el. induction errors as [|er errors IH]; intros el; simpl.
  - rewrite app_nil_r. now destruct el.
  - rewrite IH. unfold append. simpl. now rewrite <- app_assoc.
Qed.

Lemma label_step_element (_kpiset : gmap string KPISet) (class_name : pyval)
    (root : Element) (key : string) (kpi : KPISet) :
  class_name <> PyNone ->
  key <> "" -> _kpiset !! key = Some kpi ->
  label_step _kpiset class_name root key =
    Ok (append root (label_element class_name key kpi)).
Proof.
  intros Hclass Hne Hkpi. unfold label_step, dict_item.
  apply String.eqb_neq in Hne. rewrite Hne.
  rewrite etree_Element_accepts
    by (simpl; now rewrite (is_None_false _ Hclass)).
  simpl. rewrite Hkpi. simpl. now rewrite errors_loop_markers.
Qed.

(** A label entry cannot be built with the class name [None]. *)
Lemma label_step_None (_kpiset : gmap string KPISet) (root : Element)
    (key : string) :
  key <> "" -> label_step _kpiset PyNone root key = Raise TypeError.
Proof.
  intros Hne. unfold label_step. apply String.eqb_neq in Hne. now rewrite Hne.
Qed.

Lemma label_step_overall (_kpiset : gmap string KPISet) (class_name : pyval)
    (root : Element) :
  label_step _kpiset class_name root "" = Ok root.
Proof. reflexivity. Qed.

Lemma label_loop_elements (_kpiset : gmap string KPISet) (class_name : pyval)
    (keys : list string) (root : Element) :
  (forall key, In key keys -> is_Some (_kpiset !! key)) ->
  class_name <> PyNone \/ (forall key, In key keys -> key = "") ->
  label_loop _kpiset class_name keys root =
    Ok (mkElement (tag root) (attrib root) (text root)
                  (children root ++ label_elements _kpiset class_name keys)).
Proof.
  revert root. induction keys as [|key keys IH]; intros root Hin Hclass; simpl.
  - rewrite app_nil_r. now destruct root.
  - assert (Hclass' : class_name <> PyNone \/ (forall k, In k keys -> k = ""))
      by (destruct Hclass as [H | H]; [now left | right; intros k Hk; apply H; now right]).
    destruct (String.eqb key "") eqn:E.
    + apply String.eqb_eq in E. subst key. rewrite label_step_overall. simpl.
      apply IH; [| exact Hclass']. intros k Hk. apply Hin. now right.
    + apply String.eqb_neq in E.
      destruct Hclass as [Hclass | Hempty];
        [| exfalso; apply E, Hempty; now left].
      destruct (Hin key (or_introl eq_refl)) as [kpi Hkpi].
      rewrite (label_step_element _ _ _ _ kpi Hclass E Hkpi), Hkpi.
      rewrite IH by (trivial; intros k Hk; apply Hin; now right).
      unfold append. simpl. now rewrite <- app_assoc.
Qed.

(** With the class name [None] the loop stops with [TypeError] at the
    first label that is not the overall one. *)
Lemma label_loop_None (_kpiset : gmap string KPISet) (keys : list string)
    (root : Element) :
  (exists key, In key keys /\ key <> "") ->
  label_loop _kpiset PyNone keys root = Raise TypeError.
Proof.
  revert root. induction keys as [|key keys IH]; intros root [k [Hin Hne]];
    [destruct Hin |]. simpl.
  destruct (String.eqb key "") eqn:E.
  - apply String.eqb_eq in E. subst key. rewrite label_step_overall.
    apply IH. exists k. split; [| exact Hne].
    destruct Hin as [<- | Hin]; [contradiction | exact Hin].
  - apply String.eqb_neq in E. now rewrite label_step_None.
Qed.

(** The labels of the entries: the keys without the empty one. *)
Lemma label_elements_names (_kpiset : gmap string KPISet) (class_name : pyval)
    (keys : list string) :
  (forall key, In key keys -> is_Some (_kpiset !! key)) ->
  map (fun e => attrib e !! "name") (label_elements _kpiset class_name keys) =
    map (fun key => Some (PyStr key))
        (List.filter (fun key => negb (String.eqb key "")) keys).
Proof.
  induction keys as [|key keys IH]; intros Hin; simpl; [reflexivity |].
  rewrite map_app, IH by (intros k Hk; apply Hin; now right).
  destruct (String.eqb key ""); simpl; [reflexivity |].
  destruct (Hin key (or_introl eq_refl)) as [kpi ->]. simpl.
  reflexivity.
Qed.

Lemma label_elements_shape (_kpiset : gmap string KPISet) (class_name : pyval)
    (keys : list string) :
  Forall (fun e => tag e = "testcase" /\
                   attrib e !! "classname" = Some class_name /\
                   Forall (fun c => tag c = "error") (children e))
         (label_elements _kpiset class_name keys).
Proof.
  unfold label_elements. rewrite List.Forall_forall. intros e He.
  apply in_flat_map in He as [key [_ He]].
  destruct (String.eqb key ""); [destruct He |].
  destruct (_kpiset !! key) as [kpi|]; [| destruct He].
  destruct He as [<- | []]. simpl. split; [reflexivity |]. split.
  - apply lookup_insert_eq.
  - rewrite List.Forall_forall. intros c Hc.
    apply in_map_iff in Hc as [er [<- _]]. reflexivity.
Qed.

Lemma urls_errors_loop_limit (self : t) (limit : Z) (errors : list ErrorEntry)
    (count : Z) (written : list string) :
  settings self !! "max-urls" = Some limit ->
  urls_errors_loop self count errors written =
    Ok (written ++
        flat_map error_writes (firstn (Z.to_nat (limit + 1 - count)) errors)).
Proof.
  intros Hlimit. revert count written.
  induction errors as [|error rest IH]; intros count written; simpl.
  - rewrite firstn_nil. simpl. now rewrite app_nil_r.
  - rewrite Hlimit. destruct (count >? limit)%Z eqn:E.
    + apply Z.gtb_lt in E.
      replace (Z.to_nat (limit + 1 - count)) with 0%nat by lia.
      simpl. now rewrite app_nil_r.
    + assert (count <= limit)%Z
        by (rewrite Z.gtb_ltb in E; apply Z.ltb_ge in E; exact E).
      rewrite IH.
      replace (Z.to_nat (limit + 1 - count))
        with (S (Z.to_nat (limit + 1 - (count + 1)))) by lia.
      simpl. now rewrite <- app_assoc.
Qed.

Lemma get_urls_errors_limit (self : t) (limit : Z) (kpi : KPISet) :
  settings self !! "max-urls" = Some limit ->
  get_urls_errors self kpi =
    Ok (breakdown (firstn (Z.to_nat (limit + 1)) (ERRORS kpi))).
Proof.
  intros Hlimit. unfold get_urls_errors.
  rewrite (urls_errors_loop_limit self limit) by exact Hlimit.
  simpl. now rewrite Z.sub_0_r.
Qed.

Lemma get_urls_errors_nil (self : t) (kpi : KPISet) :
  ERRORS kpi = [] -> get_urls_errors self kpi = Ok "".
Proof. intros H. unfold get_urls_errors. now rewrite H. Qed.

(** Without the setting, the comparison of the first index fails. *)
Lemma get_urls_errors_no_setting (self : t) (kpi : KPISet) :
  settings self !! "max-urls" = None -> ERRORS kpi <> [] ->
  get_urls_errors self kpi = Raise TypeError.
Proof.
  intros Hnone Hne. unfold get_urls_errors.
  destruct (ERRORS kpi) as [|e l]; [contradiction |]. simpl. now rewrite Hnone.
Qed.

Lemma make_summary_report_raises (self : t) (kpi : KPISet)
    (report_urls : list pyval) (e : exn) :
  get_urls_errors self kpi = Raise e <->
  make_summary_report self kpi report_urls = Raise e.
Proof.
  unfold make_summary_report.
  cbn [etree_Element existsb bind_result is_None snd orb].
  destruct (get_urls_errors self kpi); cbn [bind_result]; split; congruence.
Qed.

Lemma make_summary_report_body (self : t) (kpi : KPISet)
    (report_urls : list pyval) (urls_errors : string) :
  get_urls_errors self kpi = Ok urls_errors ->
  make_summary_report self kpi report_urls =
    Ok (summary_element (summary_head kpi report_urls +:+ urls_errors)).
Proof.
  intros H. unfold make_summary_report.
  cbn [etree_Element existsb bind_result is_None snd orb]. now rewrite H.
Qed.
End SampleLabels.

Section SampleLabelsDocument.
Import JUnitXMLReporter.
Context {FS : Type}.

Lemma bza_info_items (rs : list reporter) :
  flat_map bza_info_item rs = uploader_pairs rs.
Proof.
  induction rs as [|r rs IH]; simpl; [reflexivity |].
  destruct r; simpl; now rewrite IH.
Qed.

Lemma get_bza_report_info_run (self : t) (w : world FS) :
  get_bza_report_info self w =
    (Ok (bza_info self), World (w_log w ++ bza_warning self) (w_fs w)).
Proof.
  unfold get_bza_report_info, bza_warning, bza_info, bind.
  rewrite bza_info_items.
  destruct (1 <? _)%Z; simpl; [reflexivity |].
  unfold ret. rewrite app_nil_r. now destruct w.
Qed.

Lemma sorted_keys_present {V} (d : gmap string V) (key : string) :
  In key (sorted id String.leb (dict_keys d)) -> is_Some (d !! key).
Proof.
  intros H. apply (Permutation_in _ (sorted_Permutation id String.leb _)) in H.
  now apply list_elem_of_In, elem_of_dict_keys in H.
Qed.

Lemma class_name_given_pairs (rs : list reporter) :
  match List.filter is_uploader rs with
  | BlazeMeterUploader _ test_id params :: _ =>
      truthy test_id = true /\
      exists name : string, params !! "test" = Some (PyStr name)
  | _ => True
  end -> label_class_name (uploader_pairs rs) <> PyNone.
Proof.
  induction rs as [|r rs IH]; simpl; [discriminate |].
  destruct r as [url test_id params| |]; simpl; try exact IH.
  intros [-> [name ->]]. discriminate.
Qed.

Lemma class_name_given_not_None (self : t) :
  class_name_given self -> label_class_name (bza_info self) <> PyNone.
Proof. apply class_name_given_pairs. Qed.

Lemma class_name_given_string_pairs (rs : list reporter) :
  match List.filter is_uploader rs with
  | BlazeMeterUploader _ test_id params :: _ =>
      truthy test_id = true /\
      exists name : string, params !! "test" = Some (PyStr name)
  | _ => True
  end -> exists name : string, label_class_name (uploader_pairs rs) = PyStr name.
Proof.
  induction rs as [|r rs IH]; simpl; [now exists "bzt" |].
  destruct r as [url test_id params| |]; simpl; try exact IH.
  intros [-> [name ->]]. now exists name.
Qed.

Lemma class_name_given_string (self : t) :
  class_name_given self ->
  exists name : string, label_class_name (bza_info self) = PyStr name.
Proof. apply class_name_given_string_pairs. Qed.

Lemma class_name_missing_pairs (rs : list reporter) :
  match List.filter is_uploader rs with
  | BlazeMeterUploader _ test_id params :: _ =>
      truthy test_id = false \/ dict_get params "test" PyNone = PyNone
  | _ => False
  end -> label_class_name (uploader_pairs rs) = PyNone.
Proof.
  induction rs as [|r rs IH]; simpl; [intros [] |].
  destruct r as [url test_id params| |]; simpl; try exact IH.
  unfold dict_get. intros [-> | H]; [reflexivity |].
  destruct (truthy test_id); [| reflexivity].
  destruct (params !! "test"); exact H.
Qed.

Lemma class_name_missing_None (self : t) :
  class_name_missing self -> label_class_name (bza_info self) = PyNone.
Proof. apply class_name_missing_pairs. Qed.

Lemma only_overall_keys (data : DataPoint) (key : string) :
  only_overall data ->
  In key (sorted id String.leb (dict_keys (CUMULATIVE data))) -> key = "".
Proof. intros H Hin. now apply H, sorted_keys_present. Qed.

(** The document of the sample-labels mode. *)
Lemma process_sample_labels_root (self : t) (data : DataPoint)
    (overall : KPISet) (urls_errors : string) (w : world FS) :
  last_second self = Some data ->
  CUMULATIVE data !! "" = Some overall ->
  get_urls_errors self overall = Ok urls_errors ->
  class_name_given self \/ only_overall data ->
  process_sample_labels self w =
    (Ok (mkElement "testsuite" sample_labels_attrib None
           (summary_element
              (summary_head overall (map fst (bza_info self)) +:+ urls_errors)
            :: label_elements (CUMULATIVE data) (label_class_name (bza_info self))
                 (sorted id String.leb (dict_keys (CUMULATIVE data))))),
     World (w_log w ++ bza_warning self) (w_fs w)).
Proof.
  intros Hlast Hoverall Hurls Hclass. unfold process_sample_labels. rewrite Hlast.
  unfold bind at 1, lift at 1, dict_item. rewrite Hoverall.
  unfold bind at 1, lift at 1.
  cbn [etree_Element existsb bind_result is_None snd orb].
  unfold bind at 1. rewrite get_bza_report_info_run.
  unfold bind at 1, lift at 1.
  rewrite (make_summary_report_body _ _ _ _ Hurls).
  unfold lift. rewrite label_loop_elements.
  - reflexivity.
  - apply sorted_keys_present.
  - destruct Hclass as [Hclass | Hclass].
    + left. now apply class_name_given_not_None.
    + right. intros key. now apply only_overall_keys.
Qed.

(** With a label that is not the overall one and the class name [None],
    the document is not built: the first label entry is refused. *)
Lemma process_sample_labels_refused (self : t) (data : DataPoint)
    (overall : KPISet) (urls_errors : string) (label : string) (w : world FS) :
  last_second self = Some data ->
  CUMULATIVE data !! "" = Some overall ->
  get_urls_errors self overall = Ok urls_errors ->
  class_name_missing self ->
  label <> "" ->
  is_Some (CUMULATIVE data !! label) ->
  process_sample_labels self w =
    (Raise TypeError, World (w_log w ++ bza_warning self) (w_fs w)).
Proof.
  intros Hlast Hoverall Hurls Hclass Hne Hlabel.
  pose proof (class_name_missing_None self Hclass) as HNone.
  assert (Hkey : exists key,
             In key (sorted id String.leb (dict_keys (CUMULATIVE data))) /\ key <> "").
  { exists label. split; [| exact Hne].
    apply (Permutation_in _ (Permutation_sym (sorted_Permutation id String.leb _))).
    now apply list_elem_of_In, elem_of_dict_keys. }
  unfold process_sample_labels. rewrite Hlast.
  unfold bind at 1, lift at 1, dict_item. rewrite Hoverall.
  unfold bind at 1, lift at 1.
  cbn [etree_Element existsb bind_result is_None snd orb].
  unfold bind at 1. rewrite get_bza_report_info_run.
  unfold bind at 1, lift at 1.
  rewrite (make_summary_report_body _ _ _ _ Hurls).
  unfold lift. fold (label_class_name (bza_info self)). rewrite HNone.
  now rewrite label_loop_None.
Qed.

Lemma get_urls_errors_defined (self : t) (kpi : KPISet) :
  ERRORS kpi = [] \/ is_Some (settings self !! "max-urls") ->
  exists urls_errors, get_urls_errors self kpi = Ok urls_errors.
Proof.
  intros [H | [limit H]].
  - eexists. now apply get_urls_errors_nil.
  - eexists. exact (get_urls_errors_limit self limit kpi H).
Qed.

Lemma label_element_In (_kpiset : gmap string KPISet) (class_name : pyval)
    (keys : list string) (key : string) (kpi : KPISet) :
  In key keys -> key <> "" -> _kpiset !! key = Some kpi ->
  In (label_element class_name key kpi) (label_elements _kpiset class_name keys).
Proof.
  intros Hin Hne Hkpi. unfold label_elements. apply in_flat_map.
  exists key. split; [exact Hin |].
  apply String.eqb_neq in Hne. rewrite Hne, Hkpi. now left.
Qed.
End SampleLabelsDocument.

Lemma StronglySorted_filter {A} (R : A -> A -> Prop) (f : A -> bool) (l : list A) :
  StronglySorted R l -> StronglySorted R (List.filter f l).
Proof.
  induction 1 as [|a l Hs IH Hall]; simpl; [constructor |].
  destruct (f a); [| exact IH].
  constructor; [exact IH |].
  rewrite List.Forall_forall in *. intros x Hx.
  apply List.filter_In in Hx as [Hx _]. now apply Hall.
Qed.

(** C7. In the sample-labels mode a document is built when the snapshot
    has the overall label, the breakdown of the errors can be written, and
    the class name of the label entries is a string or there is no label
    but the overall one.  The first entry of the document is the summary
    entry, which carries the [skipped] marker, and the other entries are
    test cases without that marker, one for each non-empty label of the
    cumulative view, in strictly ascending order of the labels. *)
Theorem sample_labels_document {FS : Type} (self : JUnitXMLReporter.t)
    (data : DataPoint) (overall : KPISet) (w : world FS) :
  JUnitXMLReporter.last_second self = Some data ->
  CUMULATIVE data !! "" = Some overall ->
  ERRORS overall = [] \/ is_Some (JUnitXMLReporter.settings self !! "max-urls") ->
  class_name_given self \/ only_overall data ->
  exists (root summary : Element) (body : string) (entries : list Element)
         (labels : list string) (w' : world FS),
    JUnitXMLReporter.process_sample_labels self w = (Ok root, w') /\
    children root = summary :: entries /\
    tag summary = "testcase" /\
    attrib summary !! "name" = Some (PyStr "summary_report") /\
    children summary =
      [mkElement "skipped" ∅ None []; mkElement "system-out" ∅ (Some body) []] /\
    Forall (fun e => tag e = "testcase" /\
                     Forall (fun c => tag c = "error") (children e)) entries /\
    map (fun e => attrib e !! "name") entries =
      map (fun label => Some (PyStr label)) labels /\
    NoDup labels /\
    (forall label, In label labels <->
                   label <> "" /\ is_Some (CUMULATIVE data !! label)) /\
    StronglySorted (fun a b => String.ltb a b = true) labels.
Proof.
  intros Hlast Hoverall Hlimit Hclass.
  destruct (get_urls_errors_defined self overall Hlimit) as [urls_errors Hurls].
  set (keys := sorted id String.leb (dict_keys (CUMULATIVE data))).
  exists (mkElement "testsuite" sample_labels_attrib None
            (summary_element
               (summary_head overall (map fst (bza_info self)) +:+ urls_errors)
             :: label_elements (CUMULATIVE data) (label_class_name (bza_info self)) keys)),
    (summary_element (summary_head overall (map fst (bza_info self)) +:+ urls_errors)),
    (summary_head overall (map fst (bza_info self)) +:+ urls_errors),
    (label_elements (CUMULATIVE data) (label_class_name (bza_info self)) keys),
    (List.filter (fun key => negb (String.eqb key "")) keys),
    (World (w_log w ++ bza_warning self) (w_fs w)).
  split; [now apply process_sample_labels_root |].
  split; [reflexivity |]. split; [reflexivity |]. split; [reflexivity |].
  split; [reflexivity |]. split.
  { eapply List.Forall_impl; [| apply label_elements_shape].
    simpl. intros e (Ht & _ & Hc). now split. }
  split; [apply label_elements_names; apply sorted_keys_present |].
  split.
  { apply NoDup_ListNoDup, List.NoDup_filter, NoDup_ListNoDup.
    unfold keys. rewrite sorted_Permutation. apply dict_keys_NoDup. }
  split.
  { intros label. rewrite List.filter_In. unfold keys. split.
    - intros [Hin Hne]. split.
      + intros ->. discriminate Hne.
      + now apply sorted_keys_present.
    - intros [Hne Hsome]. split.
      + apply (Permutation_in _ (Permutation_sym (sorted_Permutation id String.leb _))).
        now apply list_elem_of_In, elem_of_dict_keys.
      + apply String.eqb_neq in Hne. now rewrite Hne. }
  apply StronglySorted_filter, sorted_keys_strict.
Qed.

Lemma sample_labels_document_witness :
  exists (root summary : Element) (body : string) (entries : list Element)
         (labels : list string) (w' : world SimpleFS),
    JUnitXMLReporter.process_sample_labels reporter_home empty_world = (Ok root, w') /\
    children root = summary :: entries /\
    tag summary = "testcase" /\
    attrib summary !! "name" = Some (PyStr "summary_report") /\
    children summary =
      [mkElement "skipped" ∅ None []; mkElement "system-out" ∅ (Some body) []] /\
    Forall (fun e => tag e = "testcase" /\
                     Forall (fun c => tag c = "error") (children e)) entries /\
    map (fun e => attrib e !! "name") entries =
      map (fun label => Some (PyStr label)) labels /\
    NoDup labels /\
    (forall label, In label labels <->
                   label <> "" /\ is_Some (CUMULATIVE home_run !! label)) /\
    StronglySorted (fun a b => String.ltb a b = true) labels.
Proof.
  apply (sample_labels_document reporter_home home_run kpi_not_found empty_world).
  - reflexivity.
  - vm_compute. reflexivity.
  - right. eexists. vm_compute. reflexivity.
  - left. exact I.
Defined.

(** C4 (amended). In the sample-labels mode, when the document is built
    (the snapshot has the overall label, the breakdown of the errors can be
    written and the class name of the label entries is a string), every
    non-empty label of the cumulative view has its entry in the document,
    named after the label, and the entry carries one [error] marker per
    error signature of the label, in the order of the signatures: the
    [message] attribute of the marker is the response code of the
    signature, its [type] attribute is the message text, and its text is
    ["total errors of this type:"] followed by the count. *)
Theorem sample_labels_error_markers {FS : Type} (self : JUnitXMLReporter.t)
    (data : DataPoint) (overall : KPISet) (label : string) (kpi : KPISet)
    (w : world FS) :
  JUnitXMLReporter.last_second self = Some data ->
  CUMULATIVE data !! "" = Some overall ->
  ERRORS overall = [] \/ is_Some (JUnitXMLReporter.settings self !! "max-urls") ->
  class_name_given self ->
  label <> "" ->
  CUMULATIVE data !! label = Some kpi ->
  exists (root entry : Element) (w' : world FS),
    JUnitXMLReporter.process_sample_labels self w = (Ok root, w') /\
    In entry (children root) /\
    tag entry = "testcase" /\
    attrib entry !! "name" = Some (PyStr label) /\
    map tag (children entry) = map (fun _ => "error") (ERRORS kpi) /\
    map (fun m => attrib m !! "message") (children entry) =
      map (fun er => Some (PyStr (rc er))) (ERRORS kpi) /\
    map (fun m => attrib m !! "type") (children entry) =
      map (fun er => Some (PyStr (msg er))) (ERRORS kpi) /\
    map text (children entry) =
      map (fun er => Some ("total errors of this type:" +:+ str_int (cnt er)))
          (ERRORS kpi).
Proof.
  intros Hlast Hoverall Hlimit Hclass Hne Hkpi.
  destruct (get_urls_errors_defined self overall Hlimit) as [urls_errors Hurls].
  eexists _, (label_element (label_class_name (bza_info self)) label kpi), _.
  split; [exact (process_sample_labels_root self data overall urls_errors w
                   Hlast Hoverall Hurls (or_introl Hclass)) |].
  split.
  { simpl. right. apply label_element_In; [| exact Hne | exact Hkpi].
    apply (Permutation_in _ (Permutation_sym (sorted_Permutation id String.leb _))).
    apply list_elem_of_In, elem_of_dict_keys. now exists kpi. }
  split; [reflexivity |]. split; [reflexivity |].
  simpl. rewrite !map_map. repeat split; apply map_ext; intros er; reflexivity.
Qed.

Lemma sample_labels_error_markers_witness :
  exists (root entry : Element) (w' : world SimpleFS),
    JUnitXMLReporter.process_sample_labels reporter_home empty_world = (Ok root, w') /\
    In entry (children root) /\
    tag entry = "testcase" /\
    attrib entry !! "name" = Some (PyStr "home") /\
    map tag (children entry) = map (fun _ => "error") (ERRORS kpi_not_found) /\
    map (fun m => attrib m !! "message") (children entry) =
      map (fun er => Some (PyStr (rc er))) (ERRORS kpi_not_found) /\
    map (fun m => attrib m !! "type") (children entry) =
      map (fun er => Some (PyStr (msg er))) (ERRORS kpi_not_found) /\
    map text (children entry) =
      map (fun er => Some ("total errors of this type:" +:+ str_int (cnt er)))
          (ERRORS kpi_not_found).
Proof.
  apply (sample_labels_error_markers reporter_home home_run kpi_not_found
           "home" kpi_not_found empty_world).
  - reflexivity.
  - vm_compute. reflexivity.
  - right. eexists. vm_compute. reflexivity.
  - exact I.
  - discriminate.
  - vm_compute. reflexivity.
Defined.

(** C4, as stated, fails: for the label ["home"] with the signature
    (404, "Not Found", 3) the marker has the message text as its [type] and
    the response code as its [message], not the reverse. *)
Lemma sample_labels_marker_type_is_message :
  exists (summary marker : Element) (attrs : gmap string pyval) (w' : world SimpleFS),
    JUnitXMLReporter.process_sample_labels reporter_home empty_world =
      (Ok (mkElement "testsuite" sample_labels_attrib None
             [summary; mkElement "testcase" attrs None [marker]]),
       w') /\
    attrs !! "name" = Some (PyStr "home") /\
    rc not_found = "404" /\ msg not_found = "Not Found" /\
    attrib marker !! "type" = Some (PyStr "Not Found") /\
    attrib marker !! "message" = Some (PyStr "404") /\
    ~ (attrib marker !! "type" = Some (PyStr (rc not_found)) /\
       attrib marker !! "message" = Some (PyStr (msg not_found))).
Proof.
  do 4 eexists. split; [vm_compute; reflexivity |].
  split; [vm_compute; reflexivity |].
  split; [reflexivity |]. split; [reflexivity |].
  split; [vm_compute; reflexivity |]. split; [vm_compute; reflexivity |].
  intros [H _]. vm_compute in H. discriminate H.
Qed.

(** ** The error count and the breakdown of the summary *)

Lemma count_urls_sum (err_counter : Z) (error : ErrorEntry) :
  JUnitXMLReporter.count_urls err_counter error =
    err_counter + Zsum (map snd (map_to_list (urls error))).
Proof.
  unfold JUnitXMLReporter.count_urls.
  generalize (map_to_list (urls error)). intros l. revert err_counter.
  induction l as [|item l IH]; intros err_counter; simpl.
  - lia.
  - rewrite IH. lia.
Qed.

Lemma count_errors_total (kpi : KPISet) :
  JUnitXMLReporter.count_errors kpi = total_url_errors kpi.
Proof.
  unfold JUnitXMLReporter.count_errors, total_url_errors.
  assert (H : forall l acc,
             fold_left JUnitXMLReporter.count_urls l acc =
             acc + Zsum (map (fun error => Zsum (map snd (map_to_list (urls error)))) l)).
  { induction l as [|error l IH]; intros acc; simpl.
    - lia.
    - rewrite IH, count_urls_sum. lia. }
  now rewrite H.
Qed.

Lemma string_app_assoc (a b c : string) : (a +:+ b) +:+ c = a +:+ (b +:+ c).
Proof.
  induction a as [|x a IH]; [reflexivity | exact (f_equal (String x) IH)].
Qed.

Lemma string_app_nil_r (a : string) : a +:+ "" = a.
Proof.
  induction a as [|x a IH]; [reflexivity | exact (f_equal (String x) IH)].
Qed.

(** The body of the summary starts with the line of the counts. *)
Lemma summary_head_line (kpi : KPISet) (report_urls : list pyval) :
  exists links,
    summary_head kpi report_urls =
      JUnitXMLReporter.summary_line kpi (str_int (JUnitXMLReporter.count_errors kpi))
      +:+ links.
Proof.
  unfold summary_head.
  generalize (JUnitXMLReporter.summary_line kpi
                (str_int (JUnitXMLReporter.count_errors kpi))).
  induction report_urls as [|u l IH]; intros line; simpl.
  - exists "". symmetry. apply string_app_nil_r.
  - destruct (IH (line +:+ "Blazemeter report: " +:+ str u +:+ nl)) as [links Hl].
    rewrite Hl. eexists. apply string_app_assoc.
Qed.

(** C8. The count printed after ["Errors: "] in the first line of the
    body of the summary entry is the sum, over the error signatures of the
    overall statistics, of the occurrence counts of their URL breakdowns.
    It is neither the number of signatures nor the sum of their [cnt]
    fields: for one signature with [cnt = 3] seen on two endpoints 2 and 5
    times, the count printed is 7. *)
Theorem summary_errors_count (self : JUnitXMLReporter.t) (kpi : KPISet)
    (report_urls : list pyval) :
  ERRORS kpi = [] \/ is_Some (JUnitXMLReporter.settings self !! "max-urls") ->
  (exists rest,
     JUnitXMLReporter.make_summary_report self kpi report_urls =
       Ok (summary_element
             ("Success: " +:+ str_int (SUCCESSES kpi) +:+
              ", Sample count: " +:+ str_int (SAMPLE_COUNT kpi) +:+
              ", Failures: " +:+ str_int (FAILURES kpi) +:+
              ", Errors: " +:+ str_int (total_url_errors kpi) +:+ nl +:+ rest))) /\
  JUnitXMLReporter.count_errors kpi = total_url_errors kpi /\
  JUnitXMLReporter.count_errors kpi_not_found = 7 /\
  Z.of_nat (length (ERRORS kpi_not_found)) = 1 /\
  Zsum (map cnt (ERRORS kpi_not_found)) = 3.
Proof.
  intros Hlimit. split; [| split; [apply count_errors_total |]].
  - destruct (get_urls_errors_defined self kpi Hlimit) as [urls_errors Hurls].
    destruct (summary_head_line kpi report_urls) as [links Hlinks].
    exists (links +:+ urls_errors).
    rewrite (make_summary_report_body _ _ _ _ Hurls).
    rewrite Hlinks, count_errors_total. unfold JUnitXMLReporter.summary_line.
    rewrite !string_app_assoc. reflexivity.
  - split; [vm_compute; reflexivity |]. split; reflexivity.
Qed.

Lemma summary_errors_count_witness :
  (exists rest,
     JUnitXMLReporter.make_summary_report reporter_home kpi_not_found [] =
       Ok (summary_element
             ("Success: " +:+ str_int (SUCCESSES kpi_not_found) +:+
              ", Sample count: " +:+ str_int (SAMPLE_COUNT kpi_not_found) +:+
              ", Failures: " +:+ str_int (FAILURES kpi_not_found) +:+
              ", Errors: " +:+ str_int (total_url_errors kpi_not_found) +:+ nl +:+ rest))) /\
  JUnitXMLReporter.count_errors kpi_not_found = total_url_errors kpi_not_found /\
  JUnitXMLReporter.count_errors kpi_not_found = 7 /\
  Z.of_nat (length (ERRORS kpi_not_found)) = 1 /\
  Zsum (map cnt (ERRORS kpi_not_found)) = 3.
Proof.
  apply (summary_errors_count reporter_home kpi_not_found []).
  right. eexists. vm_compute. reflexivity.
Defined.

(** The body of the summary of the example, in full. *)
Example summary_body_not_found :
  JUnitXMLReporter.make_summary_report reporter_home kpi_not_found [] =
    Ok (summary_element
          ("Success: 93, Sample count: 100, Failures: 7, Errors: 7" +:+ nl +:+
           "Error code: 404, Message: Not Found, count: 3" +:+ nl +:+
           "URL: http://a/, Error count 2" +:+ nl +:+
           "URL: http://b/, Error count 5" +:+ nl)).
Proof. vm_compute. reflexivity. Qed.

(** C2. [get_urls_errors] does not read the cap [prepare] sets.  For a
    reporter whose [max-urls] setting is [n], [prepare] leaves in the field
    [max_urls] the smaller of its value and 50, with a warning when it was
    above 50, but the breakdown holds the first [n + 1] error signatures:
    the index of a signature is compared with the setting and the loop
    stops only when the index exceeds it.  With [n] above 50 and more than
    50 signatures, more than 50 signatures are listed, whatever the cap. *)
Theorem breakdown_ignores_cap {FS : Type} (self : JUnitXMLReporter.t) (n : Z)
    (kpi : KPISet) (w : world FS) :
  JUnitXMLReporter.settings self !! "max-urls" = Some n ->
  exists (self' : JUnitXMLReporter.t) (listed : list ErrorEntry),
    JUnitXMLReporter.prepare self w =
      (Ok self',
       World (w_log w ++
              if (50 <? JUnitXMLReporter.max_urls self)%Z then [limit_warning] else [])
             (w_fs w)) /\
    JUnitXMLReporter.max_urls self' = Z.min (JUnitXMLReporter.max_urls self) 50 /\
    JUnitXMLReporter.get_urls_errors self' kpi = Ok (breakdown listed) /\
    listed = firstn (Z.to_nat (n + 1)) (ERRORS kpi) /\
    (50 < n -> 50 < Z.of_nat (length (ERRORS kpi)) ->
     JUnitXMLReporter.max_urls self' <= 50 < Z.of_nat (length listed)).
Proof.
  intros Hn. unfold JUnitXMLReporter.prepare. rewrite Z.gtb_ltb.
  destruct (50 <? JUnitXMLReporter.max_urls self)%Z eqn:E.
  - apply Z.ltb_lt in E. eexists _, _. split; [reflexivity |].
    cbn [JUnitXMLReporter.max_urls].
    split; [lia |]. split; [eapply get_urls_errors_limit; exact Hn |].
    split; [reflexivity |]. intros H50 Hlen. rewrite List.length_firstn. lia.
  - apply Z.ltb_ge in E. eexists _, _. split.
    + unfold bind, ret. simpl. rewrite app_nil_r. destruct w. reflexivity.
    + cbn [JUnitXMLReporter.max_urls].
      split; [lia |]. split; [eapply get_urls_errors_limit; exact Hn |].
      split; [reflexivity |]. intros H50 Hlen. rewrite List.length_firstn. lia.
Qed.

Lemma breakdown_ignores_cap_witness :
  exists (self' : JUnitXMLReporter.t) (listed : list ErrorEntry),
    JUnitXMLReporter.prepare reporter_100 empty_world =
      (Ok self',
       World (w_log empty_world ++
              if (50 <? JUnitXMLReporter.max_urls reporter_100)%Z
              then [limit_warning] else [])
             (w_fs empty_world)) /\
    JUnitXMLReporter.max_urls self' =
      Z.min (JUnitXMLReporter.max_urls reporter_100) 50 /\
    JUnitXMLReporter.get_urls_errors self' kpi_60_errors = Ok (breakdown listed) /\
    listed = firstn (Z.to_nat (100 + 1)) (ERRORS kpi_60_errors) /\
    JUnitXMLReporter.max_urls self' <= 50 < Z.of_nat (length listed).
Proof.
  destruct (breakdown_ignores_cap reporter_100 100 kpi_60_errors empty_world)
    as (self' & listed & Hrun & Hcap & Hurls & Hlisted & Hmore).
  - vm_compute. reflexivity.
  - exists self', listed.
    split; [exact Hrun |]. split; [exact Hcap |]. split; [exact Hurls |].
    split; [exact Hlisted |].
    apply Hmore; [lia | vm_compute; reflexivity].
Defined.

(** A reporter configured with [max-urls = 100]: its cap is the default
    20, [prepare] logs nothing, and the body of the summary lists all the
    60 error signatures of the overall statistics. *)
Example summary_lists_60_signatures :
  exists self' body,
    JUnitXMLReporter.max_urls reporter_100 = 20 /\
    JUnitXMLReporter.prepare reporter_100 empty_world = (Ok self', empty_world) /\
    JUnitXMLReporter.max_urls self' = 20 /\
    JUnitXMLReporter.make_summary_report self' kpi_60_errors [] =
      Ok (summary_element body) /\
    length (ERRORS kpi_60_errors) = 60%nat /\
    count_lines_with "Error code: " true body = 60%nat.
Proof.
  do 2 eexists. split; [reflexivity |]. split; [vm_compute; reflexivity |].
  split; [reflexivity |]. split; [vm_compute; reflexivity |].
  split; vm_compute; reflexivity.
Qed.

(** The same with the field [max_urls] set to 100 by hand: [prepare] warns
    and lowers the field to 50, and the body still lists the 60
    signatures. *)
Example summary_lists_60_signatures_capped :
  exists self' body,
    JUnitXMLReporter.prepare reporter_hand_set empty_world =
      (Ok self', World [limit_warning] (w_fs empty_world)) /\
    JUnitXMLReporter.max_urls self' = 50 /\
    JUnitXMLReporter.make_summary_report self' kpi_60_errors [] =
      Ok (summary_element body) /\
    count_lines_with "Error code: " true body = 60%nat.
Proof.
  do 2 eexists. split; [vm_compute; reflexivity |].
  split; [reflexivity |]. split; vm_compute; reflexivity.
Qed.

(** ** The pass-fail mode *)

Section PassFail.
Import JUnitXMLReporter.

Lemma display_template_format (fc : FailCriteria) :
  percent_format (fst (display_template fc)) (snd (display_template fc)) =
    Ok (display_name fc).
Proof.
  unfold display_template, display_name.
  destruct (truthy (config_label fc)), (truthy (config_timeframe fc)); cbn [fst snd].
  - rewrite <- (string_app_nil_r (str (config_timeframe fc))). vm_compute. reflexivity.
  - rewrite <- (string_app_nil_r (str (config_threshold fc))). vm_compute. reflexivity.
  - rewrite <- (string_app_nil_r (str (config_timeframe fc))). vm_compute. reflexivity.
  - rewrite <- (string_app_nil_r (str (config_threshold fc))). vm_compute. reflexivity.
Qed.


(** With the class name [None] no entry could be built. *)
Lemma criterion_element_None (fc : FailCriteria) :
  criterion_element PyNone fc = Raise TypeError.
Proof.
  unfold criterion_element.
  pose proof (display_template_format fc) as H.
  destruct (display_template fc) as [tpl data]. simpl in H. now rewrite H.
Qed.







End PassFail.


(** The two criteria of the example of the specification: two entries,
    the first one alone with a marker. *)
Example pass_fail_two_criteria :
  exists w',
    JUnitXMLReporter.process_pass_fail reporter_pass_fail empty_world =
      (Ok (mkElement "testsuite" pass_fail_attrib None
             [mkElement "testcase"
                (list_to_map [("classname", PyStr "bzt"); ("name", PyStr "avg-rt>500ms")])
                None [criteria_marker];
              mkElement "testcase"
                (list_to_map [("classname", PyStr "bzt");
                              ("name", PyStr "failures of checkout>1% for 30s")])
                None []]),
       w').
Proof. eexists. vm_compute. reflexivity. Qed.

(** ** Persisting the report *)

Ltac save_report_case :=
  repeat match goal with
         | |- _ /\ _ => split
         | |- forall _, _ => intro
         | H : Raise _ = Raise _ |- _ => injection H as H; subst
         | H : (_, _) = (_, _) |- _ => injection H as ? ?; subst
         | Ew : ?t = (_, _), H : ?t = (_, _) |- _ => rewrite Ew in H
         | |- context [match ?r with Some _ => _ | None => _ end] =>
             progress cbn [fst snd w_fs w_log]
         end;
  try congruence;
  try reflexivity;
  try (rewrite <- ?app_assoc; reflexivity);
  try (apply last_snoc);
  try (eapply write_tree_content; eassumption);
  try match goal with
      | Ew : write_tree ?fs _ _ = (?fs', Some ?e)
        |- _ \/ (exists _ _, write_tree _ _ _ = (_, Some ?e)) =>
          right; exists fs, fs'; exact Ew
      | Em : os_makedirs ?fs _ = (?fs', Some ?e)
        |- (exists _ _, os_makedirs _ _ = (_, Some ?e)) \/ _ =>
          left; exists fs, fs'; exact Em
      end.

(** C9. [save_report] on an existing target logs a warning and writes
    the document over it; on a missing target whose directory is missing it
    creates the directory before it writes; and whenever creating the
    directory or writing fails, it logs ["Cannot create file"] at error
    severity as its last record and raises the exception of the failed
    call.  When it returns, the file holds the document. *)
Theorem save_report_behaviour {FS : Type} `{!FileSystem FS}
    (self : JUnitXMLReporter.t) (root : Element) (w : world FS) :
  let path := JUnitXMLReporter.report_file_path self in
  let dir := os_path_dirname path in
  let warning :=
    LogRecord WARNING "File %s already exists, will be overwritten" [LStr path] in
  let writing := LogRecord INFO "Writing JUnit XML report into: %s" [LStr path] in
  let failure := LogRecord ERROR "Cannot create file %s" [LStr path] in
  let out := JUnitXMLReporter.save_report self root w in
  (forall fs' r,
     os_path_exists (w_fs w) path = true ->
     write_tree (w_fs w) path root = (fs', r) ->
     w_fs (snd out) = fs' /\
     match r with
     | None => fst out = Ok tt /\
               w_log (snd out) = w_log w ++ [warning; writing] /\
               file_content (w_fs (snd out)) path = Some root
     | Some e => fst out = Raise e /\
                 w_log (snd out) = w_log w ++ [warning; writing; failure]
     end) /\
  (forall fs1 r1,
     os_path_exists (w_fs w) path = false ->
     dir <> "" ->
     os_path_exists (w_fs w) dir = false ->
     os_makedirs (w_fs w) dir = (fs1, r1) ->
     match r1 with
     | Some e => out = (Raise e, World (w_log w ++ [failure]) fs1)
     | None =>
         forall fs2 r2,
           write_tree fs1 path root = (fs2, r2) ->
           w_fs (snd out) = fs2 /\
           match r2 with
           | None => fst out = Ok tt /\
                     w_log (snd out) = w_log w ++ [writing] /\
                     file_content (w_fs (snd out)) path = Some root
           | Some e => fst out = Raise e /\
                       w_log (snd out) = w_log w ++ [writing; failure]
           end
     end) /\
  (forall e, fst out = Raise e ->
     last (w_log (snd out)) = Some failure /\
     ((exists fs fs', os_makedirs fs dir = (fs', Some e)) \/
      (exists fs fs', write_tree fs path root = (fs', Some e)))) /\
  (fst out = Ok tt -> file_content (w_fs (snd out)) path = Some root).
Proof.
  intros path dir warning writing failure out.
  subst out. unfold JUnitXMLReporter.save_report, try_except_reraise, bind,
    path_exists, fs_call, log_warning, log_info, log_error, log, ret.
  fold path. fold dir. cbn [w_fs w_log]. unfold truthy.
  destruct (os_path_exists (w_fs w) path) eqn:Epath; cbn [w_fs w_log negb].
  - destruct (write_tree (w_fs w) path root) as [fs2 [e|]] eqn:Ew;
      cbn [fst snd w_fs w_log]; save_report_case.
  - destruct (String.eqb dir "") eqn:Edir; cbn [negb w_fs w_log].
    + apply String.eqb_eq in Edir.
      destruct (write_tree (w_fs w) path root) as [fs2 [e|]] eqn:Ew;
        cbn [fst snd w_fs w_log]; save_report_case.
    + destruct (os_path_exists (w_fs w) dir) eqn:Eexists; cbn [negb w_fs w_log].
      * destruct (write_tree (w_fs w) path root) as [fs2 [e|]] eqn:Ew;
          cbn [fst snd w_fs w_log]; save_report_case.
      * destruct (os_makedirs (w_fs w) dir) as [fs1 [e|]] eqn:Em;
          cbn [fst snd w_fs w_log].
        -- save_report_case.
        -- destruct (write_tree fs1 path root) as [fs2 [e|]] eqn:Ew;
             cbn [fst snd w_fs w_log]; save_report_case.
Qed.

Lemma save_report_behaviour_witness :
  (let out := JUnitXMLReporter.save_report reporter_xunit new_document
                (World [] existing_fs) in
   w_fs (snd out) =
     {| files := <[xunit_path := new_document]> (files existing_fs);
        dirs := dirs existing_fs; denied := denied existing_fs |} /\
   fst out = Ok tt /\
   w_log (snd out) = [] ++ [xunit_warning; xunit_writing] /\
   file_content (w_fs (snd out)) xunit_path = Some new_document) /\
  (let out := JUnitXMLReporter.save_report reporter_xunit new_document
                (World [] empty_fs) in
   w_fs (snd out) =
     {| files := {[ xunit_path := new_document ]};
        dirs := {[ "/tmp/artifacts" ]} ∪ ∅; denied := ∅ |} /\
   fst out = Ok tt /\
   w_log (snd out) = [] ++ [xunit_writing] /\
   file_content (w_fs (snd out)) xunit_path = Some new_document) /\
  (let out := JUnitXMLReporter.save_report reporter_xunit new_document
                (World [] denied_fs) in
   out = (Raise (OSError "Permission denied"),
          World ([] ++ [xunit_failure]) denied_fs) /\
   last (w_log (snd out)) = Some xunit_failure).
Proof.
  split; [| split].
  - pose proof (proj1 (save_report_behaviour reporter_xunit new_document
                         (World [] existing_fs))
                  {| files := <[xunit_path := new_document]> (files existing_fs);
                     dirs := dirs existing_fs; denied := denied existing_fs |}
                  None) as H.
    apply H; vm_compute; reflexivity.
  - pose proof (proj1 (proj2 (save_report_behaviour reporter_xunit new_document
                                (World [] empty_fs)))
                  {| files := ∅; dirs := {[ "/tmp/artifacts" ]} ∪ ∅; denied := ∅ |}
                  None) as H.
    cbv beta iota in H.
    refine (H _ _ _ _ {| files := {[ xunit_path := new_document ]};
                         dirs := {[ "/tmp/artifacts" ]} ∪ ∅; denied := ∅ |}
              None _);
      try (vm_compute; reflexivity).
    vm_compute. discriminate.
  - pose proof (proj1 (proj2 (save_report_behaviour reporter_xunit new_document
                                (World [] denied_fs)))
                  denied_fs (Some (OSError "Permission denied"))) as H.
    pose proof (proj1 (proj2 (proj2 (save_report_behaviour reporter_xunit
                                       new_document (World [] denied_fs))))
                  (OSError "Permission denied")) as H'.
    split.
    + apply H; try (vm_compute; reflexivity). vm_compute. discriminate.
    + apply H'. vm_compute. reflexivity.
Defined.

(** ** [post_process] of the [JUnitXMLReporter] *)

(** C10. Without a stored snapshot [post_process] returns at once: no
    document is built, the file system and the log are left as they were,
    and nothing is raised, whatever the data source configured. *)
Theorem post_process_without_snapshot {FS : Type} `{!FileSystem FS}
    (self : JUnitXMLReporter.t) (w : world FS) :
  JUnitXMLReporter.last_second self = None ->
  JUnitXMLReporter.post_process self w = (Ok tt, w).
Proof.
  intros H. unfold JUnitXMLReporter.post_process. now rewrite H.
Qed.

Lemma post_process_without_snapshot_witness :
  JUnitXMLReporter.post_process
    (JUnitXMLReporter.init
       ∅ {| JUnitXMLReporter.filename := None;
            JUnitXMLReporter.data_source := Some (PyStr "pass-fail") |}
       pass_fail_engine)
    empty_world = (Ok tt, empty_world).
Proof.
  apply post_process_without_snapshot. reflexivity.
Defined.

(** A reporter that was only constructed and prepared holds no snapshot. *)
Lemma prepare_keeps_no_snapshot {FS : Type} (settings : gmap string Z)
    (parameters : JUnitXMLReporter.parameters_t) (engine : Engine) (w : world FS) :
  exists self' w',
    JUnitXMLReporter.prepare (JUnitXMLReporter.init settings parameters engine) w =
      (Ok self', w') /\
    JUnitXMLReporter.last_second self' = None.
Proof.
  unfold JUnitXMLReporter.prepare, JUnitXMLReporter.init. cbn.
  destruct (dict_get settings "max-urls" 20 >? 50)%Z; cbn;
    eexists _, _; split; reflexivity.
Qed.

(** C3 (amended). Once a snapshot is stored, a data source other than
    ["sample-labels"] and ["pass-fail"] makes [post_process] raise
    [ValueError] before any document is built: the log and the file system
    are left as they were. *)
Theorem post_process_unsupported_source {FS : Type} `{!FileSystem FS}
    (self : JUnitXMLReporter.t) (data : DataPoint) (source : pyval)
    (w : world FS) :
  JUnitXMLReporter.last_second self = Some data ->
  JUnitXMLReporter.data_source (JUnitXMLReporter.parameters self) = Some source ->
  source <> PyStr "sample-labels" ->
  source <> PyStr "pass-fail" ->
  JUnitXMLReporter.post_process self w =
    (Raise (ValueError ("Unsupported data source: " +:+ str source)), w).
Proof.
  intros Hlast Hsource Hne1 Hne2.
  unfold JUnitXMLReporter.post_process. rewrite Hlast, Hsource.
  rewrite !bool_decide_eq_false_2 by assumption. reflexivity.
Qed.

Lemma post_process_unsupported_source_witness :
  JUnitXMLReporter.post_process
    (JUnitXMLReporter.aggregated_second reporter_csv home_run) empty_world =
    (Raise (ValueError ("Unsupported data source: " +:+ str (PyStr "csv"))),
     empty_world).
Proof.
  apply (post_process_unsupported_source
           (JUnitXMLReporter.aggregated_second reporter_csv home_run)
           home_run (PyStr "csv") empty_world).
  - reflexivity.
  - reflexivity.
  - discriminate.
  - discriminate.
Defined.

(** C3, as stated, fails: with the unsupported data source ["csv"] and no
    snapshot stored, [post_process] raises nothing. *)
Lemma post_process_unsupported_source_not_raised :
  JUnitXMLReporter.data_source (JUnitXMLReporter.parameters reporter_csv) =
    Some (PyStr "csv") /\
  PyStr "csv" <> PyStr "sample-labels" /\
  PyStr "csv" <> PyStr "pass-fail" /\
  JUnitXMLReporter.post_process reporter_csv empty_world = (Ok tt, empty_world).
Proof.
  split; [reflexivity |]. split; [discriminate |]. split; [discriminate |].
  reflexivity.
Qed.

(** The conditions of C7 and C4 are those under which a document is built
    at all: [process_sample_labels] returns one only for a stored snapshot
    that has the overall label, only when the breakdown of the errors can
    be written, and only when the class name of the label entries is not
    [None] or there is no label but the overall one. *)
Lemma process_sample_labels_defined_only {FS : Type} (self : JUnitXMLReporter.t)
    (root : Element) (w w' : world FS) :
  JUnitXMLReporter.process_sample_labels self w = (Ok root, w') ->
  exists data overall,
    JUnitXMLReporter.last_second self = Some data /\
    CUMULATIVE data !! "" = Some overall /\
    (ERRORS overall = [] \/
     is_Some (JUnitXMLReporter.settings self !! "max-urls")) /\
    (class_name_missing self -> only_overall data).
Proof.
  intros H.
  destruct (JUnitXMLReporter.last_second self) as [data|] eqn:Hlast;
    [| unfold JUnitXMLReporter.process_sample_labels in H; rewrite Hlast in H;
       discriminate H].
  destruct (CUMULATIVE data !! "") as [overall|] eqn:Hoverall;
    [| unfold JUnitXMLReporter.process_sample_labels in H; rewrite Hlast in H;
       unfold bind at 1, lift at 1, dict_item in H; rewrite Hoverall in H;
       discriminate H].
  assert (Hlimit : ERRORS overall = [] \/
                   is_Some (JUnitXMLReporter.settings self !! "max-urls")).
  { destruct (ERRORS overall) as [|error rest] eqn:Herrors; [now left | right].
    destruct (JUnitXMLReporter.settings self !! "max-urls") as [limit|] eqn:Hs;
      [now exists limit |].
    exfalso. revert H. unfold JUnitXMLReporter.process_sample_labels.
    rewrite Hlast. unfold bind at 1, lift at 1, dict_item. rewrite Hoverall.
    unfold bind at 1, lift at 1.
    cbn [etree_Element existsb bind_result is_None snd orb].
    unfold bind at 1. rewrite get_bza_report_info_run.
    unfold bind at 1, lift at 1.
    rewrite (proj1 (make_summary_report_raises self overall _ TypeError));
      [discriminate |].
    apply get_urls_errors_no_setting; [exact Hs | now rewrite Herrors]. }
  exists data, overall. split; [reflexivity |]. split; [exact Hoverall |].
  split; [exact Hlimit |].
  intros Hmissing label Hlabel.
  destruct (decide (label = "")) as [E | E]; [exact E | exfalso].
  destruct (get_urls_errors_defined self overall Hlimit) as [urls_errors Hurls].
  rewrite (process_sample_labels_refused self data overall urls_errors label w
             Hlast Hoverall Hurls Hmissing E Hlabel) in H.
  discriminate H.
Qed.

(** * Further properties *)

(** ** [FinalStatus]: the sections of the report *)

Lemma for_each_logs_many {FS A} (l : list A) (body : A -> M FS unit)
    (lines : A -> list log_record) (w : world FS) :
  (forall x w0, In x l ->
     body x w0 = (Ok tt, World (w_log w0 ++ lines x) (w_fs w0))) ->
  for_each l body w = (Ok tt, World (w_log w ++ flat_map lines l) (w_fs w)).
Proof.
  revert w. induction l as [|x l IH]; intros w H; simpl.
  - unfold ret. rewrite app_nil_r. now destruct w.
  - unfold bind. rewrite (H x w) by now left.
    rewrite IH by (intros; apply H; now right). simpl.
    now rewrite <- app_assoc.
Qed.

Lemma flat_map_filter {A B} (p : A -> bool) (f : A -> B) (l : list A) :
  flat_map (fun x => if p x then [f x] else []) l = map f (List.filter p l).
Proof.
  induction l as [|x l IH]; simpl; [reflexivity |].
  rewrite IH. now destruct (p x).
Qed.

Lemma report_failed_labels_log {FS : Type} (cumulative : gmap string KPISet)
    (w : world FS) :
  FinalStatus.report_failed_labels cumulative w =
    (Ok tt,
     World (w_log w ++ map (failed_label_record cumulative) (failed_labels cumulative))
           (w_fs w)).
Proof.
  unfold FinalStatus.report_failed_labels, failed_labels.
  rewrite <- flat_map_filter. apply for_each_logs_many.
  intros label w0 Hin. apply sorted_keys_present in Hin as [kpi Hkpi].
  unfold reports_failure, failed_label_record, failed_count. rewrite Hkpi.
  destruct (String.eqb label ""); simpl.
  - unfold ret. rewrite app_nil_r. now destruct w0.
  - unfold bind, lift, dict_item. rewrite Hkpi.
    destruct (FAILURES kpi =? 0)%Z; simpl; [| reflexivity].
    unfold ret. rewrite app_nil_r. now destruct w0.
Qed.

(** X1. [__report_failed_labels] never raises and leaves the file system
    alone; it logs one record, with the count and the label, for each label
    of the cumulative view that is non-empty and has failed samples, and
    for no other, in strictly ascending order of the labels. *)
Theorem report_failed_labels_records {FS : Type} (cumulative : gmap string KPISet)
    (w : world FS) :
  exists labels : list string,
    FinalStatus.report_failed_labels cumulative w =
      (Ok tt,
       World (w_log w ++
              map (fun label =>
                     LogRecord INFO "%d failed samples: %s"
                               [LInt (failed_count cumulative label); LStr label])
                  labels)
             (w_fs w)) /\
    (forall label, In label labels <->
       label <> "" /\
       exists kpi, cumulative !! label = Some kpi /\ FAILURES kpi <> 0) /\
    StronglySorted (fun a b => String.ltb a b = true) labels.
Proof.
  exists (failed_labels cumulative).
  split; [apply report_failed_labels_log |]. split.
  - intros label. unfold failed_labels, reports_failure, failed_count.
    rewrite List.filter_In, andb_true_iff, !negb_true_iff, String.eqb_neq, Z.eqb_neq.
    split.
    + intros [Hin [Hne Hf]]. split; [exact Hne |].
      apply sorted_keys_present in Hin as [kpi Hkpi]. rewrite Hkpi in Hf.
      now exists kpi.
    + intros [Hne [kpi [Hkpi Hf]]]. rewrite Hkpi. repeat split; trivial.
      apply (Permutation_in _ (Permutation_sym (sorted_Permutation id String.leb _))).
      apply list_elem_of_In, elem_of_dict_keys. now exists kpi.
  - apply StronglySorted_filter, sorted_keys_strict.
Qed.

(** The labels ["Home"] and ["login"] are reported, in that order; the
    overall label and ["search"], which has no failure, are not. *)
Example report_failed_labels_mixed :
  FinalStatus.report_failed_labels (CUMULATIVE mixed_run) empty_world =
    (Ok tt,
     World [LogRecord INFO "%d failed samples: %s" [LInt 5; LStr "Home"];
            LogRecord INFO "%d failed samples: %s" [LInt 5; LStr "login"]]
           empty_fs).
Proof. vm_compute. reflexivity. Qed.

Lemma int_of_float_nonneg (x : Q) : (0 <= x)%Q -> int_of_float x = Qfloor x.
Proof.
  intros H. unfold int_of_float. apply Qle_bool_iff in H. now rewrite H.
Qed.

(** X3. When the clock did not go back and both readings are not
    negative, the duration [__report_duration] logs is a whole number of
    seconds that is not negative and differs from the time elapsed by less
    than a second. *)
Theorem report_duration_seconds {FS : Type} (start_time now : Q) (w : world FS) :
  (0 <= start_time)%Q ->
  (start_time <= now)%Q ->
  exists seconds : Z,
    FinalStatus.report_duration start_time now w =
      (Ok tt,
       World (w_log w ++ [LogRecord INFO "Test duration: %s" [LDelta seconds]])
             (w_fs w)) /\
    0 <= seconds /\
    (now - start_time - 1 < inject_Z seconds)%Q /\
    (inject_Z seconds < now - start_time + 1)%Q.
Proof.
  intros Hstart Hnow.
  assert (Hnow0 : (0 <= now)%Q) by (eapply Qle_trans; eassumption).
  exists (int_of_float now - int_of_float start_time).
  split; [reflexivity |].
  rewrite !int_of_float_nonneg by assumption.
  pose proof (Qfloor_le now) as Hn1. pose proof (Qlt_floor now) as Hn2.
  pose proof (Qfloor_le start_time) as Hs1. pose proof (Qlt_floor start_time) as Hs2.
  pose proof (Qfloor_resp_le _ _ Hnow) as Hmono.
  rewrite inject_Z_plus in Hn2, Hs2.
  unfold Z.sub. rewrite inject_Z_plus, inject_Z_opp.
  change (inject_Z 1) with 1%Q in *.
  split; [lia |]. split; lra.
Qed.

Lemma report_duration_seconds_witness :
  exists seconds : Z,
    FinalStatus.report_duration (15 # 10) (1373 # 10) empty_world =
      (Ok tt,
       World (w_log empty_world ++
              [LogRecord INFO "Test duration: %s" [LDelta seconds]])
             (w_fs empty_world)) /\
    0 <= seconds /\
    ((1373 # 10) - (15 # 10) - 1 < inject_Z seconds)%Q /\
    (inject_Z seconds < (1373 # 10) - (15 # 10) + 1)%Q.
Proof.
  apply (report_duration_seconds (15 # 10) (1373 # 10) empty_world).
  - discriminate.
  - discriminate.
Defined.

Section FinalStatusRun.
Import FinalStatus.
Context (float : string -> option Q) {FS : Type}.

Lemma duration_step (now : Q) (self : t) (w : world FS) :
  (if truthy (dict_get (parameters self) "test-duration" (PyBool true))
   then report_duration (start_time self) now
   else ret tt) w =
    (Ok tt, World (w_log w ++ duration_section self now) (w_fs w)).
Proof.
  unfold duration_section, enabled.
  destruct (truthy _); [reflexivity |].
  unfold ret. rewrite app_nil_r. now destruct w.
Qed.

Lemma samples_step (self : t) (kpi : KPISet) (w : world FS) :
  (enabled self "summary" true = true -> SAMPLE_COUNT kpi <> 0) ->
  (if truthy (dict_get (parameters self) "summary" (PyBool true))
   then report_samples_count kpi
   else ret tt) w =
    (Ok tt, World (w_log w ++ samples_section self kpi) (w_fs w)).
Proof.
  unfold samples_section, enabled. intros H.
  destruct (truthy _).
  - now apply report_samples_count_nonzero, H.
  - unfold ret. rewrite app_nil_r. now destruct w.
Qed.

Lemma percentiles_step (self : t) (kpi : KPISet) (w : world FS) :
  (enabled self "percentiles" true = true ->
   forall key, is_Some (PERCENTILES kpi !! key) -> is_Some (float key)) ->
  (if truthy (dict_get (parameters self) "percentiles" (PyBool true))
   then report_percentiles float kpi
   else ret tt) w =
    (Ok tt, World (w_log w ++ percentiles_section float self kpi) (w_fs w)).
Proof.
  unfold percentiles_section, enabled. intros H.
  destruct (truthy _).
  - now apply report_percentiles_log, H.
  - unfold ret. rewrite app_nil_r. now destruct w.
Qed.

Lemma failed_labels_step (self : t) (cumulative : gmap string KPISet)
    (w : world FS) :
  (if truthy (dict_get (parameters self) "failed-labels" (PyBool false))
   then report_failed_labels cumulative
   else ret tt) w =
    (Ok tt, World (w_log w ++ failed_labels_section self cumulative) (w_fs w)).
Proof.
  unfold failed_labels_section, enabled.
  destruct (truthy _).
  - apply report_failed_labels_log.
  - unfold ret. rewrite app_nil_r. now destruct w.
Qed.

Lemma post_process_sections (now : Q) (self : t) (data : DataPoint)
    (overall : KPISet) (w : world FS) :
  last_sec self = Some data ->
  CUMULATIVE data !! "" = Some overall ->
  (enabled self "summary" true = true -> SAMPLE_COUNT overall <> 0) ->
  (enabled self "percentiles" true = true ->
   forall key, is_Some (PERCENTILES overall !! key) -> is_Some (float key)) ->
  post_process float now self w =
    (Ok tt,
     World (w_log w ++ duration_section self now ++ samples_section self overall ++
            percentiles_section float self overall ++
            failed_labels_section self (CUMULATIVE data))
           (w_fs w)).
Proof.
  intros Hlast Hoverall Hsamples Hkeys. unfold post_process.
  unfold bind at 1. rewrite duration_step, Hlast.
  unfold bind at 1, lift at 1, dict_item. rewrite Hoverall.
  unfold bind at 1. rewrite samples_step by exact Hsamples.
  unfold bind at 1. rewrite percentiles_step by exact Hkeys.
  rewrite failed_labels_step. cbn [w_log w_fs].
  now rewrite <- !app_assoc.
Qed.

Lemma post_process_no_snapshot (now : Q) (self : t) (w : world FS) :
  last_sec self = None ->
  post_process float now self w =
    (Ok tt, World (w_log w ++ duration_section self now) (w_fs w)).
Proof.
  intros Hlast. unfold post_process.
  unfold bind at 1. rewrite duration_step, Hlast. reflexivity.
Qed.

Lemma post_process_no_overall (now : Q) (self : t) (data : DataPoint)
    (w : world FS) :
  last_sec self = Some data ->
  CUMULATIVE data !! "" = None ->
  post_process float now self w =
    (Raise (KeyError ""), World (w_log w ++ duration_section self now) (w_fs w)).
Proof.
  intros Hlast Hoverall. unfold post_process.
  unfold bind at 1. rewrite duration_step, Hlast.
  unfold bind at 1, lift at 1, dict_item. now rewrite Hoverall.
Qed.
End FinalStatusRun.

(** X4. Without a stored snapshot the finalisation of [FinalStatus]
    raises nothing and logs the duration alone, or nothing at all when the
    duration is switched off. *)
Theorem final_status_without_snapshot (float : string -> option Q) {FS : Type}
    (now : Q) (self : FinalStatus.t) (w : world FS) :
  FinalStatus.last_sec self = None ->
  FinalStatus.post_process float now self w =
    (Ok tt, World (w_log w ++ duration_section self now) (w_fs w)).
Proof. apply post_process_no_snapshot. Qed.

Lemma final_status_without_snapshot_witness :
  FinalStatus.post_process decimal 75 (FinalStatus.init 15 ∅) empty_world =
    (Ok tt,
     World (w_log empty_world ++ duration_section (FinalStatus.init 15 ∅) 75)
           (w_fs empty_world)).
Proof.
  apply (final_status_without_snapshot decimal 75 (FinalStatus.init 15 ∅) empty_world).
  reflexivity.
Defined.

(** X5. A snapshot whose cumulative view lacks the overall label makes
    the finalisation of [FinalStatus] raise [KeyError] for the empty key
    once the duration is logged, whatever statistics are switched on: the
    overall statistics are looked up before any option is read. *)
Theorem final_status_missing_overall (float : string -> option Q) {FS : Type}
    (now : Q) (self : FinalStatus.t) (data : DataPoint) (w : world FS) :
  FinalStatus.last_sec self = Some data ->
  CUMULATIVE data !! "" = None ->
  FinalStatus.post_process float now self w =
    (Raise (KeyError ""), World (w_log w ++ duration_section self now) (w_fs w)).
Proof. apply post_process_no_overall. Qed.

Lemma final_status_missing_overall_witness :
  FinalStatus.post_process decimal 75 (final_status_of headless_run) empty_world =
    (Raise (KeyError ""),
     World (w_log empty_world ++ duration_section (final_status_of headless_run) 75)
           (w_fs empty_world)).
Proof.
  apply (final_status_missing_overall decimal 75 (final_status_of headless_run)
           headless_run empty_world).
  - reflexivity.
  - vm_compute. reflexivity.
Defined.

(** X6. With a snapshot that has the overall label, samples when the
    summary is on and numeric percentile keys when the percentiles are on,
    the finalisation of [FinalStatus] raises nothing, leaves the file
    system alone and logs its sections in a fixed order: duration, sample
    count, averages and percentiles, failed labels, each one present
    exactly when its option is on. *)
Theorem final_status_report (float : string -> option Q) {FS : Type}
    (now : Q) (self : FinalStatus.t) (data : DataPoint) (overall : KPISet)
    (w : world FS) :
  FinalStatus.last_sec self = Some data ->
  CUMULATIVE data !! "" = Some overall ->
  (enabled self "summary" true = true -> SAMPLE_COUNT overall <> 0) ->
  (enabled self "percentiles" true = true ->
   forall key, is_Some (PERCENTILES overall !! key) -> is_Some (float key)) ->
  FinalStatus.post_process float now self w =
    (Ok tt,
     World (w_log w ++ duration_section self now ++ samples_section self overall ++
            percentiles_section float self overall ++
            failed_labels_section self (CUMULATIVE data))
           (w_fs w)).
Proof. apply post_process_sections. Qed.

Lemma final_status_report_witness :
  FinalStatus.post_process decimal 75 (final_status_of mixed_run) empty_world =
    (Ok tt,
     World (w_log empty_world ++ duration_section (final_status_of mixed_run) 75 ++
            samples_section (final_status_of mixed_run) kpi_9_10 ++
            percentiles_section decimal (final_status_of mixed_run) kpi_9_10 ++
            failed_labels_section (final_status_of mixed_run) (CUMULATIVE mixed_run))
           (w_fs empty_world)).
Proof.
  apply (final_status_report decimal 75 (final_status_of mixed_run) mixed_run
           kpi_9_10 empty_world).
  - reflexivity.
  - vm_compute. reflexivity.
  - intros _. discriminate.
  - intros _. exact kpi_9_10_numeric.
Defined.

(** The report of the example in full, with the default options: the
    failed labels are off. *)
Example final_status_report_mixed :
  FinalStatus.post_process decimal 75 (final_status_of mixed_run) empty_world =
    (Ok tt,
     World [duration_record 0 75;
            samples_record kpi_9_10;
            averages_record kpi_9_10;
            percentile_record {| pl_key := "9"; pl_rank := 9; pl_value := 1 |};
            percentile_record {| pl_key := "10"; pl_rank := 10; pl_value := 2 |};
            percentile_record {| pl_key := "50.5"; pl_rank := 505 # 10; pl_value := 3 |}]
           empty_fs).
Proof. vm_compute. reflexivity. Qed.

Lemma map_result_Raise {A B} (f : A -> result B) (l : list A) :
  (exists x, In x l /\ exists e, f x = Raise e) ->
  exists x e, In x l /\ f x = Raise e /\ map_result f l = Raise e.
Proof.
  induction l as [|y l IH]; intros [x [Hin [e He]]]; [destruct Hin |].
  simpl. destruct (f y) as [b|e'] eqn:Ey.
  - destruct Hin as [-> | Hin]; [congruence |].
    destruct IH as [x' [e'' [Hin' [Hf Hm]]]]; [now exists x; eauto |].
    exists x', e''. rewrite Hm. repeat split; trivial. now right.
  - exists y, e'. repeat split; trivial. now left.
Qed.

(** X7. A percentile key that [float] refuses makes
    [__report_percentiles] raise [ValueError] after the line of the
    averages: no percentile is logged, not even those with numeric keys. *)
Theorem report_percentiles_bad_key (float : string -> option Q) {FS : Type}
    (kpi : KPISet) (w : world FS) :
  (exists key, is_Some (PERCENTILES kpi !! key) /\ float key = None) ->
  exists message : string,
    FinalStatus.report_percentiles float kpi w =
      (Raise (ValueError message),
       World (w_log w ++ [averages_record kpi]) (w_fs w)).
Proof.
  intros [key [Hkey Hfloat]].
  destruct (map_result_Raise
              (fun k => match FinalStatus.float_of float k with
                        | Ok q => Ok (q, k)
                        | Raise e => Raise e
                        end)
              (dict_keys (PERCENTILES kpi))) as [bad [e [Hin [Hbad Hmap]]]].
  { exists key. split; [now apply list_elem_of_In, elem_of_dict_keys |].
    unfold FinalStatus.float_of. rewrite Hfloat. eauto. }
  unfold FinalStatus.float_of in Hbad.
  destruct (float bad); [discriminate |]. injection Hbad as <-.
  eexists. unfold FinalStatus.report_percentiles, bind at 1.
  unfold log_info at 1, log. cbn [w_log w_fs].
  unfold bind, lift, FinalStatus.sorted_by_float. rewrite Hmap. reflexivity.
Qed.

Lemma report_percentiles_bad_key_witness :
  exists message : string,
    FinalStatus.report_percentiles decimal kpi_bad_key empty_world =
      (Raise (ValueError message),
       World (w_log empty_world ++ [averages_record kpi_bad_key]) (w_fs empty_world)).
Proof.
  apply (report_percentiles_bad_key decimal kpi_bad_key empty_world).
  exists "median". split.
  - eexists. vm_compute. reflexivity.
  - vm_compute. reflexivity.
Defined.

(** ** [JUnitXMLReporter]: preparation *)

(** X8. [prepare] never raises and leaves the file system alone.  After
    it the cap [max_urls] is the smaller of the value before and 50; the
    warning is logged exactly when the value before exceeded 50; the
    snapshot, the settings, the engine and the data source are kept. *)
Theorem prepare_cap {FS : Type} (self : JUnitXMLReporter.t) (w : world FS) :
  exists self',
    JUnitXMLReporter.prepare self w =
      (Ok self',
       World (w_log w ++
              if (50 <? JUnitXMLReporter.max_urls self)%Z then [limit_warning] else [])
             (w_fs w)) /\
    JUnitXMLReporter.max_urls self' = Z.min (JUnitXMLReporter.max_urls self) 50 /\
    JUnitXMLReporter.last_second self' = JUnitXMLReporter.last_second self /\
    JUnitXMLReporter.settings self' = JUnitXMLReporter.settings self /\
    JUnitXMLReporter.engine self' = JUnitXMLReporter.engine self /\
    JUnitXMLReporter.data_source (JUnitXMLReporter.parameters self') =
      JUnitXMLReporter.data_source (JUnitXMLReporter.parameters self).
Proof.
  unfold JUnitXMLReporter.prepare. rewrite Z.gtb_ltb.
  destruct (50 <? JUnitXMLReporter.max_urls self)%Z eqn:E.
  - apply Z.ltb_lt in E. eexists. split; [reflexivity |]. simpl.
    repeat split. lia.
  - apply Z.ltb_ge in E. eexists. split.
    + unfold bind, ret. simpl. rewrite app_nil_r. destruct w. reflexivity.
    + simpl. repeat split. lia.
Qed.

Lemma prepare_run {FS : Type} (self : JUnitXMLReporter.t) (w : world FS) :
  JUnitXMLReporter.prepare self w =
    (Ok {| JUnitXMLReporter.report_file_path :=
             match JUnitXMLReporter.filename (JUnitXMLReporter.parameters self) with
             | Some f => if String.eqb f "" then artifact_path self else f
             | None => artifact_path self
             end;
           JUnitXMLReporter.last_second := JUnitXMLReporter.last_second self;
           JUnitXMLReporter.max_urls := Z.min (JUnitXMLReporter.max_urls self) 50;
           JUnitXMLReporter.settings := JUnitXMLReporter.settings self;
           JUnitXMLReporter.parameters :=
             {| JUnitXMLReporter.filename :=
                  Some match JUnitXMLReporter.filename (JUnitXMLReporter.parameters self) with
                       | Some f => if String.eqb f "" then artifact_path self else f
                       | None => artifact_path self
                       end;
                JUnitXMLReporter.data_source :=
                  JUnitXMLReporter.data_source (JUnitXMLReporter.parameters self) |};
           JUnitXMLReporter.engine := JUnitXMLReporter.engine self |},
     World (w_log w ++
            if (50 <? JUnitXMLReporter.max_urls self)%Z then [limit_warning] else [])
           (w_fs w)).
Proof.
  unfold JUnitXMLReporter.prepare, artifact_path, truthy. rewrite Z.gtb_ltb.
  destruct (50 <? JUnitXMLReporter.max_urls self)%Z eqn:E.
  - apply Z.ltb_lt in E. unfold bind at 1. simpl.
    rewrite Z.min_r by lia.
    destruct (JUnitXMLReporter.filename _) as [f|]; [destruct (String.eqb f "") |];
      reflexivity.
  - apply Z.ltb_ge in E. unfold bind, ret. simpl.
    rewrite Z.min_l, app_nil_r by lia. destruct w as [l fs]. simpl.
    destruct (JUnitXMLReporter.filename _) as [f|]; [destruct (String.eqb f "") |];
      reflexivity.
Qed.

(** X9. [prepare] takes a configured file name that is not empty as the
    path of the report and asks the engine for an artifact path otherwise;
    it stores the path under ["filename"] in the parameters.  If the path
    is not empty, preparing a second time changes neither the reporter nor
    the log: the engine is not asked again. *)
Theorem prepare_path {FS : Type} (self : JUnitXMLReporter.t) (w : world FS) :
  exists self' w',
    JUnitXMLReporter.prepare self w = (Ok self', w') /\
    (forall f, JUnitXMLReporter.filename (JUnitXMLReporter.parameters self) = Some f ->
               f <> "" -> JUnitXMLReporter.report_file_path self' = f) /\
    (JUnitXMLReporter.filename (JUnitXMLReporter.parameters self) = None \/
     JUnitXMLReporter.filename (JUnitXMLReporter.parameters self) = Some "" ->
     JUnitXMLReporter.report_file_path self' = artifact_path self) /\
    JUnitXMLReporter.filename (JUnitXMLReporter.parameters self') =
      Some (JUnitXMLReporter.report_file_path self') /\
    (JUnitXMLReporter.report_file_path self' <> "" ->
     JUnitXMLReporter.prepare self' w' = (Ok self', w')).
Proof.
  eexists _, _. split; [apply prepare_run |]. cbn [JUnitXMLReporter.report_file_path
    JUnitXMLReporter.parameters JUnitXMLReporter.filename].
  split; [| split; [| split; [reflexivity |]]].
  - intros f -> Hne. apply String.eqb_neq in Hne. now rewrite Hne.
  - intros [-> | ->]; reflexivity.
  - intros Hne. rewrite prepare_run. apply String.eqb_neq in Hne.
    cbn [JUnitXMLReporter.report_file_path JUnitXMLReporter.parameters
         JUnitXMLReporter.filename JUnitXMLReporter.max_urls
         JUnitXMLReporter.last_second JUnitXMLReporter.settings
         JUnitXMLReporter.engine JUnitXMLReporter.data_source w_log w_fs].
    rewrite Hne.
    assert (E : (50 <? Z.min (JUnitXMLReporter.max_urls self) 50)%Z = false)
      by (apply Z.ltb_ge; lia).
    rewrite E, app_nil_r, Z.min_l by lia. reflexivity.
Qed.

Lemma prepare_path_witness :
  exists self' w',
    JUnitXMLReporter.prepare reporter_named empty_world = (Ok self', w') /\
    JUnitXMLReporter.report_file_path self' = "reports/junit.xml" /\
    JUnitXMLReporter.prepare self' w' = (Ok self', w').
Proof.
  destruct (prepare_path reporter_named empty_world)
    as (self' & w' & Hrun & Hnamed & _ & _ & Hagain).
  exists self', w'. split; [exact Hrun |].
  assert (Hpath : JUnitXMLReporter.report_file_path self' = "reports/junit.xml")
    by (apply Hnamed; [reflexivity | discriminate]).
  split; [exact Hpath |]. apply Hagain. rewrite Hpath. discriminate.
Defined.

(** ** [JUnitXMLReporter]: the report links and the summary *)

(** X10. [get_bza_report_info] never raises and leaves the file system
    alone.  It returns one pair for each BlazeMeter uploader among the
    reporters of the engine, in their order: the link is built from the
    results URL and is [None] without one, the test name is the ["test"]
    parameter of the uploader and is [None] when the uploader has no test
    id or no such parameter.  The warning is logged exactly when there is
    more than one uploader. *)
Theorem bza_report_info_pairs {FS : Type} (self : JUnitXMLReporter.t) (w : world FS) :
  exists info : list (pyval * pyval),
    JUnitXMLReporter.get_bza_report_info self w =
      (Ok info,
       World (w_log w ++
              if (1 <? Z.of_nat (length info))%Z
              then [LogRecord WARNING "More then one blazemeter reporter found" []]
              else [])
             (w_fs w)) /\
    Forall2 (fun r item =>
               exists results_url test_id params,
                 r = BlazeMeterUploader results_url test_id params /\
                 fst item =
                   (if truthy results_url
                    then PyStr ("BlazeMeter report link: " +:+ str results_url +:+ nl)
                    else PyNone) /\
                 snd item =
                   (if truthy test_id
                    then match params !! "test" with
                         | Some name => name
                         | None => PyNone
                         end
                    else PyNone))
            (List.filter is_uploader (reporters (JUnitXMLReporter.engine self)))
            info.
Proof.
  exists (bza_info self). split; [apply get_bza_report_info_run |].
  unfold bza_info. generalize (reporters (JUnitXMLReporter.engine self)).
  intros l. induction l as [|r l IH]; simpl; [constructor |].
  destruct r as [url id params| |]; simpl; try exact IH.
  constructor; [| exact IH]. exists url, id, params. repeat split.
Qed.

(** Two uploaders: a link without a test name, then a test name without a
    link, and the warning. *)
Example bza_report_info_two_uploaders :
  JUnitXMLReporter.get_bza_report_info reporter_uploaders empty_world =
    (Ok [(PyStr ("BlazeMeter report link: https://a.blazemeter.com/r/1" +:+ nl), PyNone);
         (PyNone, PyStr "Smoke")],
     World [LogRecord WARNING "More then one blazemeter reporter found" []] empty_fs).
Proof. vm_compute. reflexivity. Qed.

Lemma summary_head_links (kpi : KPISet) (report_urls : list pyval) :
  summary_head kpi report_urls =
    JUnitXMLReporter.summary_line kpi (str_int (JUnitXMLReporter.count_errors kpi))
    +:+ report_links report_urls.
Proof.
  unfold summary_head.
  generalize (JUnitXMLReporter.summary_line kpi
                (str_int (JUnitXMLReporter.count_errors kpi))).
  induction report_urls as [|u l IH]; intros line; simpl.
  - symmetry. apply string_app_nil_r.
  - rewrite IH, !string_app_assoc. reflexivity.
Qed.

(** X11. With the [max-urls] setting [limit], the body of the summary
    entry is the line of the counts, then one line per report link in the
    order given, then the breakdown of the first [limit + 1] error
    signatures of the overall statistics, in their order. *)
Theorem summary_body_layout (self : JUnitXMLReporter.t) (kpi : KPISet)
    (report_urls : list pyval) (limit : Z) :
  JUnitXMLReporter.settings self !! "max-urls" = Some limit ->
  JUnitXMLReporter.make_summary_report self kpi report_urls =
    Ok (summary_element
          (JUnitXMLReporter.summary_line kpi
             (str_int (JUnitXMLReporter.count_errors kpi)) +:+
           report_links report_urls +:+
           breakdown (firstn (Z.to_nat (limit + 1)) (ERRORS kpi)))).
Proof.
  intros Hlimit.
  rewrite (make_summary_report_body self kpi report_urls _
             (get_urls_errors_limit self limit kpi Hlimit)).
  now rewrite summary_head_links, string_app_assoc.
Qed.

Lemma summary_body_layout_witness :
  JUnitXMLReporter.make_summary_report reporter_uploaders kpi_not_found
    [PyStr "https://a.blazemeter.com/r/1"] =
    Ok (summary_element
          (JUnitXMLReporter.summary_line kpi_not_found
             (str_int (JUnitXMLReporter.count_errors kpi_not_found)) +:+
           report_links [PyStr "https://a.blazemeter.com/r/1"] +:+
           breakdown (firstn (Z.to_nat (20 + 1)) (ERRORS kpi_not_found)))).
Proof.
  apply (summary_body_layout reporter_uploaders kpi_not_found
           [PyStr "https://a.blazemeter.com/r/1"] 20).
  vm_compute. reflexivity.
Defined.

(** X12. With the [max-urls] setting [limit], [get_urls_errors] writes
    the breakdown of a prefix of the error signatures: the first
    [limit + 1] of them, all of them when there are no more than that, and
    none when [limit] is negative. *)
Theorem urls_errors_prefix (self : JUnitXMLReporter.t) (kpi : KPISet) (limit : Z) :
  JUnitXMLReporter.settings self !! "max-urls" = Some limit ->
  exists listed dropped : list ErrorEntry,
    JUnitXMLReporter.get_urls_errors self kpi = Ok (breakdown listed) /\
    ERRORS kpi = listed ++ dropped /\
    Z.of_nat (length listed) =
      Z.min (Z.of_nat (length (ERRORS kpi))) (Z.max 0 (limit + 1)).
Proof.
  intros Hlimit.
  exists (firstn (Z.to_nat (limit + 1)) (ERRORS kpi)),
         (skipn (Z.to_nat (limit + 1)) (ERRORS kpi)).
  split; [now apply get_urls_errors_limit |]. split.
  - symmetry. apply firstn_skipn.
  - rewrite List.length_firstn. lia.
Qed.

Lemma urls_errors_prefix_witness :
  exists listed dropped : list ErrorEntry,
    JUnitXMLReporter.get_urls_errors reporter_named kpi_3_errors = Ok (breakdown listed) /\
    ERRORS kpi_3_errors = listed ++ dropped /\
    Z.of_nat (length listed) =
      Z.min (Z.of_nat (length (ERRORS kpi_3_errors))) (Z.max 0 (1 + 1)).
Proof.
  apply (urls_errors_prefix reporter_named kpi_3_errors 1).
  vm_compute. reflexivity.
Defined.

(** With [max-urls = 1], two of three signatures are listed. *)
Example urls_errors_two_of_three :
  JUnitXMLReporter.get_urls_errors reporter_named kpi_3_errors =
    Ok ("Error code: 0, Message: failed, count: 1" +:+ nl +:+
        "URL: http://host/0, Error count 1" +:+ nl +:+
        "Error code: 1, Message: failed, count: 1" +:+ nl +:+
        "URL: http://host/1, Error count 1" +:+ nl).
Proof. vm_compute. reflexivity. Qed.

Lemma Zsum_nonneg (l : list Z) : Forall (fun c => 0 <= c) l -> 0 <= Zsum l.
Proof.
  induction 1 as [|c l Hc _ IH]; simpl; lia.
Qed.

(** X13. When no endpoint of no error signature has a negative count,
    the error count of the summary is not negative; it is 0 without error
    signatures. *)
Theorem count_errors_nonneg (kpi : KPISet) :
  (forall error url count,
     In error (ERRORS kpi) -> urls error !! url = Some count -> 0 <= count) ->
  0 <= JUnitXMLReporter.count_errors kpi /\
  (ERRORS kpi = [] -> JUnitXMLReporter.count_errors kpi = 0).
Proof.
  intros H. split.
  - rewrite count_errors_total. unfold total_url_errors.
    apply Zsum_nonneg. rewrite List.Forall_forall. intros c Hc.
    apply in_map_iff in Hc as [error [<- Hin]].
    apply Zsum_nonneg. rewrite List.Forall_forall. intros c Hc.
    apply in_map_iff in Hc as [[url count] [<- Hitem]].
    apply list_elem_of_In, elem_of_map_to_list in Hitem. simpl.
    now apply (H error url).
  - intros E. unfold JUnitXMLReporter.count_errors. now rewrite E.
Qed.

Lemma not_found_counts (error : ErrorEntry) (url : string) (count : Z) :
  In error (ERRORS kpi_not_found) -> urls error !! url = Some count -> 0 <= count.
Proof.
  intros [<- | []] H.
  assert (Hin : (url, count) ∈ map_to_list (urls not_found))
    by now apply elem_of_map_to_list.
  assert (E : map_to_list (urls not_found) = [("http://b/", 5); ("http://a/", 2)]
              \/ map_to_list (urls not_found) = [("http://a/", 2); ("http://b/", 5)])
    by (vm_compute; auto).
  destruct E as [E | E]; rewrite E in Hin;
    apply list_elem_of_In in Hin; simpl in Hin;
    destruct Hin as [[= <- <-] | [[= <- <-] | []]]; lia.
Qed.

Lemma count_errors_nonneg_witness :
  0 <= JUnitXMLReporter.count_errors kpi_not_found /\
  (ERRORS kpi_not_found = [] -> JUnitXMLReporter.count_errors kpi_not_found = 0).
Proof.
  apply (count_errors_nonneg kpi_not_found). exact not_found_counts.
Defined.

(** X14. When the count of every error signature is the sum of the
    counts of its endpoints, the error count of the summary is the sum of
    the counts of the signatures. *)
Theorem count_errors_consistent (kpi : KPISet) :
  (forall error, In error (ERRORS kpi) ->
     cnt error = Zsum (map snd (map_to_list (urls error)))) ->
  JUnitXMLReporter.count_errors kpi = Zsum (map cnt (ERRORS kpi)).
Proof.
  intros H. rewrite count_errors_total. unfold total_url_errors. f_equal.
  apply map_ext_in. intros error Hin. symmetry. now apply H.
Qed.

Lemma count_errors_consistent_witness :
  JUnitXMLReporter.count_errors kpi_3_errors = Zsum (map cnt (ERRORS kpi_3_errors)).
Proof.
  apply (count_errors_consistent kpi_3_errors).
  intros error Hin. unfold kpi_3_errors, numbered_errors in Hin. simpl in Hin.
  destruct Hin as [<- | [<- | [<- | []]]]; vm_compute; reflexivity.
Defined.

(** ** [JUnitXMLReporter]: from the snapshot to the file *)

Section PostProcess.
Import JUnitXMLReporter.
Context {FS : Type} `{!FileSystem FS}.

Lemma save_report_content (self : t) (root : Element) (w : world FS) :
  fst (save_report self root w) = Ok tt ->
  file_content (w_fs (snd (save_report self root w))) (report_file_path self) =
    Some root.
Proof.
  unfold save_report, try_except_reraise, bind, path_exists, fs_call,
    log_warning, log_info, log_error, log, ret, truthy.
  cbn [w_fs w_log].
  destruct (os_path_exists (w_fs w) (report_file_path self)); cbn [w_fs w_log negb].
  - destruct (write_tree _ _ _) as [fs2 [e|]] eqn:Ew;
      cbn [fst snd w_fs w_log]; save_report_case.
  - destruct (String.eqb _ ""); cbn [negb w_fs w_log].
    + destruct (write_tree _ _ _) as [fs2 [e|]] eqn:Ew;
        cbn [fst snd w_fs w_log]; save_report_case.
    + destruct (os_path_exists _ _); cbn [negb w_fs w_log].
      * destruct (write_tree _ _ _) as [fs2 [e|]] eqn:Ew;
          cbn [fst snd w_fs w_log]; save_report_case.
      * destruct (os_makedirs _ _) as [fs1 [e|]] eqn:Em;
          cbn [fst snd w_fs w_log]; [save_report_case |].
        destruct (write_tree _ _ _) as [fs2 [e|]] eqn:Ew;
          cbn [fst snd w_fs w_log]; save_report_case.
Qed.


Lemma post_process_sample_labels_run (self : t) (data : DataPoint)
    (overall : KPISet) (limit : Z) (w : world FS) :
  last_second self = Some data ->
  data_source (parameters self) = None \/
  data_source (parameters self) = Some (PyStr "sample-labels") ->
  CUMULATIVE data !! "" = Some overall ->
  settings self !! "max-urls" = Some limit ->
  class_name_given self \/ only_overall data ->
  post_process self w =
    save_report self (sample_labels_root self data overall limit)
                (World (w_log w ++ bza_warning self) (w_fs w)).
Proof.
  intros Hlast Hsource Hoverall Hlimit Hclass. unfold post_process. rewrite Hlast.
  assert (E : match data_source (parameters self) with
              | Some v => v
              | None => PyStr "sample-labels"
              end = PyStr "sample-labels")
    by (destruct Hsource as [-> | ->]; reflexivity).
  rewrite E, bool_decide_eq_true_2 by reflexivity.
  unfold bind.
  rewrite (process_sample_labels_root self data overall _ w Hlast Hoverall
             (get_urls_errors_limit self limit overall Hlimit) Hclass).
  reflexivity.
Qed.

Lemma post_process_sample_labels_refused (self : t) (data : DataPoint)
    (overall : KPISet) (label : string) (w : world FS) :
  last_second self = Some data ->
  data_source (parameters self) = None \/
  data_source (parameters self) = Some (PyStr "sample-labels") ->
  CUMULATIVE data !! "" = Some overall ->
  ERRORS overall = [] \/ is_Some (settings self !! "max-urls") ->
  class_name_missing self ->
  label <> "" ->
  is_Some (CUMULATIVE data !! label) ->
  post_process self w =
    (Raise TypeError, World (w_log w ++ bza_warning self) (w_fs w)).
Proof.
  intros Hlast Hsource Hoverall Hlimit Hclass Hne Hlabel.
  destruct (get_urls_errors_defined self overall Hlimit) as [urls_errors Hurls].
  unfold post_process. rewrite Hlast.
  assert (E : match data_source (parameters self) with
              | Some v => v
              | None => PyStr "sample-labels"
              end = PyStr "sample-labels")
    by (destruct Hsource as [-> | ->]; reflexivity).
  rewrite E, bool_decide_eq_true_2 by reflexivity.
  unfold bind.
  now rewrite (process_sample_labels_refused self data overall urls_errors label w
                 Hlast Hoverall Hurls Hclass Hne Hlabel).
Qed.

Lemma post_process_sample_labels_no_overall (self : t) (data : DataPoint)
    (w : world FS) :
  last_second self = Some data ->
  data_source (parameters self) = None \/
  data_source (parameters self) = Some (PyStr "sample-labels") ->
  CUMULATIVE data !! "" = None ->
  post_process self w = (Raise (KeyError ""), w).
Proof.
  intros Hlast Hsource Hoverall. unfold post_process. rewrite Hlast.
  assert (E : match data_source (parameters self) with
              | Some v => v
              | None => PyStr "sample-labels"
              end = PyStr "sample-labels")
    by (destruct Hsource as [-> | ->]; reflexivity).
  rewrite E, bool_decide_eq_true_2 by reflexivity.
  unfold bind, process_sample_labels. rewrite Hlast.
  unfold bind, lift, dict_item. now rewrite Hoverall.
Qed.
End PostProcess.

(** X15. In the sample-labels mode, a snapshot whose cumulative view
    lacks the overall label makes [post_process] raise [KeyError] for the
    empty key before anything is logged or written. *)
Theorem post_process_sample_labels_missing_overall {FS : Type} `{!FileSystem FS}
    (self : JUnitXMLReporter.t) (data : DataPoint) (w : world FS) :
  JUnitXMLReporter.last_second self = Some data ->
  JUnitXMLReporter.data_source (JUnitXMLReporter.parameters self) = None \/
  JUnitXMLReporter.data_source (JUnitXMLReporter.parameters self) =
    Some (PyStr "sample-labels") ->
  CUMULATIVE data !! "" = None ->
  JUnitXMLReporter.post_process self w = (Raise (KeyError ""), w).
Proof. apply post_process_sample_labels_no_overall. Qed.

Lemma post_process_sample_labels_missing_overall_witness :
  JUnitXMLReporter.post_process reporter_headless empty_world =
    (Raise (KeyError ""), empty_world).
Proof.
  apply (post_process_sample_labels_missing_overall reporter_headless headless_run
           empty_world).
  - reflexivity.
  - left. reflexivity.
  - vm_compute. reflexivity.
Defined.



(** X17. In the sample-labels mode, which is also the mode when no data
    source is configured, with a snapshot that has the overall label, with
    the [max-urls] setting, and with a string as the class name of the
    label entries or no label but the overall one, [post_process] hands the
    document of the labels to [save_report]; when it returns, the report
    file holds that document. *)
Theorem post_process_sample_labels_saved {FS : Type} `{!FileSystem FS}
    (self : JUnitXMLReporter.t) (data : DataPoint) (overall : KPISet) (limit : Z)
    (w : world FS) :
  JUnitXMLReporter.last_second self = Some data ->
  JUnitXMLReporter.data_source (JUnitXMLReporter.parameters self) = None \/
  JUnitXMLReporter.data_source (JUnitXMLReporter.parameters self) =
    Some (PyStr "sample-labels") ->
  CUMULATIVE data !! "" = Some overall ->
  JUnitXMLReporter.settings self !! "max-urls" = Some limit ->
  class_name_given self \/ only_overall data ->
  JUnitXMLReporter.post_process self w =
    JUnitXMLReporter.save_report self (sample_labels_root self data overall limit)
      (World (w_log w ++ bza_warning self) (w_fs w)) /\
  (fst (JUnitXMLReporter.post_process self w) = Ok tt ->
   file_content (w_fs (snd (JUnitXMLReporter.post_process self w)))
                (JUnitXMLReporter.report_file_path self) =
     Some (sample_labels_root self data overall limit)).
Proof.
  intros Hlast Hsource Hoverall Hlimit Hclass.
  rewrite (post_process_sample_labels_run self data overall limit w
             Hlast Hsource Hoverall Hlimit Hclass).
  split; [reflexivity | apply save_report_content].
Qed.

Lemma post_process_sample_labels_saved_witness :
  JUnitXMLReporter.post_process reporter_xunit (World [] existing_fs) =
    JUnitXMLReporter.save_report reporter_xunit
      (sample_labels_root reporter_xunit home_run kpi_not_found 20)
      (World (w_log (World [] existing_fs) ++ bza_warning reporter_xunit)
             (w_fs (World [] existing_fs))) /\
  file_content
    (w_fs (snd (JUnitXMLReporter.post_process reporter_xunit (World [] existing_fs))))
    (JUnitXMLReporter.report_file_path reporter_xunit) =
    Some (sample_labels_root reporter_xunit home_run kpi_not_found 20).
Proof.
  destruct (post_process_sample_labels_saved reporter_xunit home_run kpi_not_found 20
              (World [] existing_fs)) as [Hrun Hfile].
  - reflexivity.
  - left. reflexivity.
  - vm_compute. reflexivity.
  - vm_compute. reflexivity.
  - left. exact I.
  - split; [exact Hrun |]. apply Hfile. vm_compute. reflexivity.
Defined.

(** The whole run of the example: the old report is replaced, with a
    warning. *)
Example post_process_replaces_report :
  JUnitXMLReporter.post_process reporter_xunit (World [] existing_fs) =
    (Ok tt,
     World [xunit_warning; xunit_writing]
           {| files := {[ xunit_path :=
                            sample_labels_root reporter_xunit home_run kpi_not_found 20 ]};
              dirs := {[ "/tmp/artifacts" ]};
              denied := ∅ |}).
Proof. vm_compute. reflexivity. Qed.

(** ** The class names of the entries *)

Lemma bza_info_no_uploader (self : JUnitXMLReporter.t) :
  List.filter is_uploader (reporters (JUnitXMLReporter.engine self)) = [] ->
  bza_info self = [].
Proof.
  unfold bza_info. generalize (reporters (JUnitXMLReporter.engine self)).
  intros l. induction l as [|r l IH]; simpl; [reflexivity |].
  destruct r; simpl; try discriminate; exact IH.
Qed.

Lemma bza_info_first_uploader (self : JUnitXMLReporter.t)
    (results_url test_id : pyval) (params : gmap string pyval) (rest : list reporter) :
  List.filter is_uploader (reporters (JUnitXMLReporter.engine self)) =
    BlazeMeterUploader results_url test_id params :: rest ->
  exists link others,
    bza_info self =
      (link, if truthy test_id then dict_get params "test" PyNone else PyNone)
      :: others.
Proof.
  unfold bza_info. generalize (reporters (JUnitXMLReporter.engine self)).
  intros l. induction l as [|r l IH]; simpl; [discriminate |].
  destruct r; simpl; try exact IH.
  intros [= -> -> -> _]. eexists _, _. reflexivity.
Qed.



(** X19. In the sample-labels mode, when the document is built and the
    class name of the label entries is a string, the summary entry has the
    class name ["bzt"] and the entries of the labels share one class name:
    ["bzt"] when the engine has no BlazeMeter uploader, and otherwise the
    ["test"] parameter of the first uploader, without the fallback to
    ["bzt"] of the pass-fail mode when that name is empty.  Apart from the
    warning about the uploaders nothing is logged, and the file system is
    left alone. *)
Theorem sample_labels_class_names {FS : Type} (self : JUnitXMLReporter.t)
    (data : DataPoint) (overall : KPISet) (w : world FS) :
  JUnitXMLReporter.last_second self = Some data ->
  CUMULATIVE data !! "" = Some overall ->
  ERRORS overall = [] \/ is_Some (JUnitXMLReporter.settings self !! "max-urls") ->
  class_name_given self ->
  exists (root summary : Element) (entries : list Element) (classname : string),
    JUnitXMLReporter.process_sample_labels self w =
      (Ok root, World (w_log w ++ bza_warning self) (w_fs w)) /\
    children root = summary :: entries /\
    attrib summary !! "classname" = Some (PyStr "bzt") /\
    Forall (fun entry => attrib entry !! "classname" = Some (PyStr classname)) entries /\
    (List.filter is_uploader (reporters (JUnitXMLReporter.engine self)) = [] ->
     classname = "bzt") /\
    (forall results_url test_id params rest,
       List.filter is_uploader (reporters (JUnitXMLReporter.engine self)) =
         BlazeMeterUploader results_url test_id params :: rest ->
       truthy test_id = true /\ params !! "test" = Some (PyStr classname)).
Proof.
  intros Hlast Hoverall Hlimit Hclass.
  destruct (get_urls_errors_defined self overall Hlimit) as [urls_errors Hurls].
  destruct (class_name_given_string self Hclass) as [classname Hname].
  eexists _, _, _, classname.
  split; [exact (process_sample_labels_root self data overall urls_errors w
                   Hlast Hoverall Hurls (or_introl Hclass)) |].
  split; [reflexivity |]. split; [reflexivity |]. split.
  { eapply List.Forall_impl; [| apply label_elements_shape].
    simpl. intros e (_ & Hc & _). now rewrite <- Hname. }
  split.
  - intros Hnone. rewrite (bza_info_no_uploader self Hnone) in Hname.
    simpl in Hname. now injection Hname as <-.
  - intros results_url test_id params rest Hfirst.
    unfold class_name_given in Hclass. rewrite Hfirst in Hclass.
    destruct Hclass as [Htest [name Hparam]]. split; [exact Htest |].
    destruct (bza_info_first_uploader self _ _ _ _ Hfirst) as [link [others Hinfo]].
    rewrite Hinfo in Hname. simpl in Hname.
    rewrite Htest in Hname. unfold dict_get in Hname. rewrite Hparam in Hname.
    rewrite Hparam. now rewrite Hname.
Qed.

Lemma sample_labels_class_names_witness :
  exists (root summary : Element) (entries : list Element) (classname : string),
    JUnitXMLReporter.process_sample_labels reporter_named_test empty_world =
      (Ok root,
       World (w_log empty_world ++ bza_warning reporter_named_test) (w_fs empty_world)) /\
    children root = summary :: entries /\
    attrib summary !! "classname" = Some (PyStr "bzt") /\
    Forall (fun entry => attrib entry !! "classname" = Some (PyStr classname)) entries /\
    classname = "Nightly".
Proof.
  destruct (sample_labels_class_names reporter_named_test home_run kpi_not_found
              empty_world)
    as (root & summary & entries & classname & Hrun & Hroot & Hsum & Hall & _ & Hfirst).
  - reflexivity.
  - vm_compute. reflexivity.
  - right. eexists. vm_compute. reflexivity.
  - split; [reflexivity |]. exists "Nightly". reflexivity.
  - exists root, summary, entries, classname. repeat split; trivial.
    destruct (Hfirst (PyStr "https://a.blazemeter.com/r/1") (PyInt 7)
                     {[ "test" := PyStr "Nightly" ]} [] eq_refl) as [_ Hname].
    vm_compute in Hname. now injection Hname as <-.
Defined.

(** X23. In the sample-labels mode the class name [None] of the label
    entries is not replaced by ["bzt"]: when the first BlazeMeter uploader
    of the engine has no test id, or no ["test"] parameter but [None], and
    the cumulative view has a label besides the overall one, the document is
    not built.  [process_sample_labels] raises [TypeError] after the warning
    about the uploaders, so does [post_process], and the file system is
    left as it was: no report is written, and [save_report] logs nothing. *)
Theorem sample_labels_missing_class_name {FS : Type} `{!FileSystem FS}
    (self : JUnitXMLReporter.t) (data : DataPoint) (overall : KPISet)
    (label : string) (w : world FS) :
  JUnitXMLReporter.last_second self = Some data ->
  JUnitXMLReporter.data_source (JUnitXMLReporter.parameters self) = None \/
  JUnitXMLReporter.data_source (JUnitXMLReporter.parameters self) =
    Some (PyStr "sample-labels") ->
  CUMULATIVE data !! "" = Some overall ->
  ERRORS overall = [] \/ is_Some (JUnitXMLReporter.settings self !! "max-urls") ->
  class_name_missing self ->
  label <> "" ->
  is_Some (CUMULATIVE data !! label) ->
  JUnitXMLReporter.process_sample_labels self w =
    (Raise TypeError, World (w_log w ++ bza_warning self) (w_fs w)) /\
  JUnitXMLReporter.post_process self w =
    (Raise TypeError, World (w_log w ++ bza_warning self) (w_fs w)).
Proof.
  intros Hlast Hsource Hoverall Hlimit Hclass Hne Hlabel. split.
  - destruct (get_urls_errors_defined self overall Hlimit) as [urls_errors Hurls].
    exact (process_sample_labels_refused self data overall urls_errors label w
             Hlast Hoverall Hurls Hclass Hne Hlabel).
  - exact (post_process_sample_labels_refused self data overall label w
             Hlast Hsource Hoverall Hlimit Hclass Hne Hlabel).
Qed.

Lemma sample_labels_missing_class_name_witness :
  JUnitXMLReporter.process_sample_labels reporter_uploaders (World [] existing_fs) =
    (Raise TypeError,
     World [LogRecord WARNING "More then one blazemeter reporter found" []] existing_fs) /\
  JUnitXMLReporter.post_process reporter_uploaders (World [] existing_fs) =
    (Raise TypeError,
     World [LogRecord WARNING "More then one blazemeter reporter found" []] existing_fs).
Proof.
  apply (sample_labels_missing_class_name reporter_uploaders home_run kpi_not_found
           "home" (World [] existing_fs)).
  - reflexivity.
  - left. reflexivity.
  - vm_compute. reflexivity.
  - right. eexists. vm_compute. reflexivity.
  - left. reflexivity.
  - discriminate.
  - eexists. vm_compute. reflexivity.
Defined.

(** ** Writing without creating a directory *)

(** X20. When the target is missing and the path has no directory part,
    or its directory is there, [save_report] creates no directory: it logs
    the line of the writing and writes at once, so that the file system
    changes by that write alone; a failure of the write is logged at error
    severity and raised. *)
Theorem save_report_without_makedirs {FS : Type} `{!FileSystem FS}
    (self : JUnitXMLReporter.t) (root : Element) (w : world FS)
    (fs' : FS) (r : option exn) :
  let path := JUnitXMLReporter.report_file_path self in
  let writing := LogRecord INFO "Writing JUnit XML report into: %s" [LStr path] in
  let failure := LogRecord ERROR "Cannot create file %s" [LStr path] in
  os_path_exists (w_fs w) path = false ->
  os_path_dirname path = "" \/ os_path_exists (w_fs w) (os_path_dirname path) = true ->
  write_tree (w_fs w) path root = (fs', r) ->
  JUnitXMLReporter.save_report self root w =
    match r with
    | None => (Ok tt, World (w_log w ++ [writing]) fs')
    | Some e => (Raise e, World (w_log w ++ [writing; failure]) fs')
    end.
Proof.
  intros path writing failure Hmissing Hdir Hwrite.
  unfold JUnitXMLReporter.save_report, try_except_reraise, bind, path_exists,
    fs_call, log_warning, log_info, log_error, log, ret, truthy.
  fold path. cbn [w_fs w_log]. rewrite Hmissing. cbn [w_fs w_log].
  destruct (String.eqb (os_path_dirname path) "") eqn:Eempty; cbn [negb w_fs w_log].
  - rewrite Hwrite.
    destruct r; cbn [w_fs w_log]; rewrite <- ?app_assoc; reflexivity.
  - destruct Hdir as [Hdir | Hdir].
    + rewrite Hdir in Eempty. discriminate Eempty.
    + rewrite Hdir. cbn [negb w_fs w_log]. rewrite Hwrite.
      destruct r; cbn [w_fs w_log]; rewrite <- ?app_assoc; reflexivity.
Qed.

Lemma save_report_without_makedirs_witness :
  JUnitXMLReporter.save_report reporter_cwd new_document empty_world =
    (Ok tt,
     World (w_log empty_world ++
            [LogRecord INFO "Writing JUnit XML report into: %s"
                       [LStr (JUnitXMLReporter.report_file_path reporter_cwd)]])
           {| files := {[ "xunit.xml" := new_document ]}; dirs := ∅; denied := ∅ |}).
Proof.
  apply (save_report_without_makedirs reporter_cwd new_document empty_world
           {| files := {[ "xunit.xml" := new_document ]}; dirs := ∅; denied := ∅ |}
           None).
  - vm_compute. reflexivity.
  - left. vm_compute. reflexivity.
  - vm_compute. reflexivity.
Defined.

(** ** Only the latest snapshot is kept *)

Lemma final_status_deliveries_fields (snapshots : list DataPoint)
    (self : FinalStatus.t) :
  FinalStatus.start_time (fold_left FinalStatus.aggregated_second snapshots self) =
    FinalStatus.start_time self /\
  FinalStatus.end_time (fold_left FinalStatus.aggregated_second snapshots self) =
    FinalStatus.end_time self /\
  FinalStatus.parameters (fold_left FinalStatus.aggregated_second snapshots self) =
    FinalStatus.parameters self.
Proof.
  revert self. induction snapshots as [|d l IH]; intros self; simpl.
  - repeat split.
  - destruct (IH (FinalStatus.aggregated_second self d)) as (H1 & H2 & H3).
    now rewrite H1, H2, H3.
Qed.

(** X21. However many snapshots were delivered to [FinalStatus] before,
    after a delivery the reporter is as if that snapshot alone had been
    delivered: the earlier ones leave no trace, and the start time and the
    parameters are untouched, so the finalisation reports the latest
    snapshot only. *)
Theorem final_status_keeps_latest (float : string -> option Q) {FS : Type}
    (now : Q) (self : FinalStatus.t) (earlier : list DataPoint) (latest : DataPoint)
    (w : world FS) :
  fold_left FinalStatus.aggregated_second (earlier ++ [latest]) self =
    FinalStatus.aggregated_second self latest /\
  FinalStatus.post_process float now
      (fold_left FinalStatus.aggregated_second (earlier ++ [latest]) self) w =
    FinalStatus.post_process float now (FinalStatus.aggregated_second self latest) w.
Proof.
  assert (E : fold_left FinalStatus.aggregated_second (earlier ++ [latest]) self =
              FinalStatus.aggregated_second self latest).
  { rewrite fold_left_app. simpl. unfold FinalStatus.aggregated_second at 1.
    destruct (final_status_deliveries_fields earlier self) as (H1 & H2 & H3).
    now rewrite H1, H2, H3. }
  now rewrite E.
Qed.

Lemma junit_deliveries_fields (snapshots : list DataPoint)
    (self : JUnitXMLReporter.t) :
  JUnitXMLReporter.report_file_path
      (fold_left JUnitXMLReporter.aggregated_second snapshots self) =
    JUnitXMLReporter.report_file_path self /\
  JUnitXMLReporter.max_urls
      (fold_left JUnitXMLReporter.aggregated_second snapshots self) =
    JUnitXMLReporter.max_urls self /\
  JUnitXMLReporter.settings
      (fold_left JUnitXMLReporter.aggregated_second snapshots self) =
    JUnitXMLReporter.settings self /\
  JUnitXMLReporter.parameters
      (fold_left JUnitXMLReporter.aggregated_second snapshots self) =
    JUnitXMLReporter.parameters self /\
  JUnitXMLReporter.engine
      (fold_left JUnitXMLReporter.aggregated_second snapshots self) =
    JUnitXMLReporter.engine self.
Proof.
  revert self. induction snapshots as [|d l IH]; intros self; simpl.
  - repeat split.
  - destruct (IH (JUnitXMLReporter.aggregated_second self d))
      as (H1 & H2 & H3 & H4 & H5).
    now rewrite H1, H2, H3, H4, H5.
Qed.

(** X22. However many snapshots were delivered to the
    [JUnitXMLReporter] before, after a delivery the reporter is as if that
    snapshot alone had been delivered, with its path, cap, settings,
    parameters and engine untouched; [post_process] then reports the
    latest snapshot only. *)
Theorem junit_keeps_latest {FS : Type} `{!FileSystem FS}
    (self : JUnitXMLReporter.t) (earlier : list DataPoint) (latest : DataPoint)
    (w : world FS) :
  fold_left JUnitXMLReporter.aggregated_second (earlier ++ [latest]) self =
    JUnitXMLReporter.aggregated_second self latest /\
  JUnitXMLReporter.post_process
      (fold_left JUnitXMLReporter.aggregated_second (earlier ++ [latest]) self) w =
    JUnitXMLReporter.post_process (JUnitXMLReporter.aggregated_second self latest) w.
Proof.
  assert (E : fold_left JUnitXMLReporter.aggregated_second (earlier ++ [latest]) self =
              JUnitXMLReporter.aggregated_second self latest).
  { rewrite fold_left_app. simpl. unfold JUnitXMLReporter.aggregated_second at 1.
    destruct (junit_deliveries_fields earlier self) as (H1 & H2 & H3 & H4 & H5).
    now rewrite H1, H2, H3, H4, H5. }
  now rewrite E.
Qed.
